(** * Trip expense bot: ledger store, rate cache and conversion paths

    A shallow embedding of [Trip/bot/database.py], [Trip/bot/currency.py]
    and of the add and edit commands of [Trip/bot/commands.py].

    Conventions of the embedding.
    - Python [float] amounts are exact rationals ([Q]); [==] on them is
      [Qeq].  Rounding of binary64 is not modelled, so an equation proved
      here is the exact law that the floating-point values follow up to
      rounding.  Division is Python's: dividing by zero raises
      [ZeroDivisionError].
    - Python [str] is [string]; [<] and [>] on strings are the
      lexicographic order of [String.ltb].
    - A Python [dict] with a fixed set of keys is a record; the rate
      mapping, whose keys vary, is a [gmap string _].
    - [self.data] is a reference to a dict object: the store carries a
      heap of such objects and a pointer to the current one, so that the
      alias handed out by [export_data] is visible.
    - The clock ([datetime.now()]) and the outcome of a file write or of
      an HTTP request are arguments of the operations. *)

From Stdlib Require Import ZArith QArith Bool List Lia.
From Stdlib Require Import Sorting.Sorted Sorting.Permutation.
From stdpp Require Import base option list gmap strings.
Import ListNotations.

Local Open Scope string_scope.

(** ** Python values shared by the three files *)

(** Truth value of an [Optional[str]] in a condition: [None] and the
    empty string are false. *)
Definition truthy (o : option string) : bool :=
  match o with
  | Some s => negb (String.eqb s "")
  | None => false
  end.

(** [a or b] for an optional string [a] and a string [b]. *)
Definition str_or (a : option string) (b : string) : string :=
  match a with
  | Some s => if String.eqb s "" then b else s
  | None => b
  end.

(** Membership in a list of string constants ([x in CITIES]). *)
Definition str_in (x : string) (l : list string) : bool :=
  existsb (String.eqb x) l.

(** Exceptions that the modelled code can raise. *)
Inductive exn : Type :=
| ZeroDivisionError
| TypeError.

(** Python's [a / b] on floats. *)
Definition py_div (a b : Q) : exn + Q :=
  if Qeq_bool b 0 then inl ZeroDivisionError else inr (a / b)%Q.

(** What happens when a file is opened for writing and a JSON document is
    dumped into it: the write completes, [open] raises and the file is
    untouched, or [json.dump] raises after the file was truncated. *)
Inductive write_outcome : Type :=
| WriteOk
| OpenFails
| DumpFails.

(** Content of a file that holds a JSON document of type [A]. *)
Inductive file (A : Type) : Type :=
| NoFile
| Saved (a : A)
| Truncated.
Arguments NoFile {A}.
Arguments Saved {A} a.
Arguments Truncated {A}.

Definition write_json {A : Type} (w : write_outcome) (a : A) (f : file A)
  : file A :=
  match w with
  | WriteOk => Saved a
  | OpenFails => f
  | DumpFails => Truncated
  end.

(** [sorted(l, key=..., reverse=True)] and [l.sort(key=..., reverse=True)]
    for a key with the strict order [lt] (given on the elements): the
    stable descending sort, as an insertion sort.  An element is put
    after the elements that are greater and before the equal or smaller
    ones that followed it in the input. *)
Fixpoint insert_desc {A : Type} (lt : A -> A -> bool) (x : A) (l : list A)
  : list A :=
  match l with
  | [] => [x]
  | y :: l' => if lt x y then y :: insert_desc lt x l' else x :: y :: l'
  end.

Fixpoint sort_desc {A : Type} (lt : A -> A -> bool) (l : list A) : list A :=
  match l with
  | [] => []
  | x :: l' => insert_desc lt x (sort_desc lt l')
  end.

(** A [dict] with string keys that is built up key by key, in insertion
    order.  [dict_update k init f d] is
    [if k not in d: d[k] = init] followed by [d[k] = f(d[k])]. *)
Fixpoint dict_update {A : Type} (k : string) (init : A) (f : A -> A)
    (d : list (string * A)) : list (string * A) :=
  match d with
  | [] => [(k, f init)]
  | (k', v) :: d' =>
      if String.eqb k' k then (k', f v) :: d'
      else (k', v) :: dict_update k init f d'
  end.

(** [sum(...)] and a [+=] loop over amounts, as the exact sum: a left
    fold from 0.  On exact rationals neither the order of the additions
    nor the way [sum] rounds shows. *)
Definition py_sum (l : list Q) : Q := fold_left Qplus l 0%Q.


(** [min(l)] and [max(l)] on a list of strings; [None] stands for the
    [ValueError] on the empty list. *)
Definition py_min (l : list string) : option string :=
  match l with
  | [] => None
  | x :: l' => Some (fold_left (fun m y => if String.ltb y m then y else m) l' x)
  end.

Definition py_max (l : list string) : option string :=
  match l with
  | [] => None
  | x :: l' => Some (fold_left (fun m y => if String.ltb m y then y else m) l' x)
  end.

(** ** [database.py] *)
Module Database.

(** An attachment descriptor. *)
Record Document : Type := mkDocument {
  filename : string;
  filepath : string;
  size : Z;
  uploaded_at : string
}.

(** An expense dict.  The key ['documents'] may be missing in a record
    read from an older file, hence the option. *)
Record Expense : Type := mkExpense {
  id : Z;
  city : string;
  activity : string;
  category : string;
  date : string;
  original_amount : Q;
  original_currency : string;
  total_rmb : Q;
  payer : string;
  sunil_rmb : Q;
  shirin_rmb : Q;
  sunil_gbp : Q;
  shirin_aed : Q;
  notes : string;
  documents : option (list Document);
  created_at : string
}.

(** The dict bound to [self.data]. *)
Record Data : Type := mkData {
  expenses : list Expense;
  next_id : Z;
  data_created_at : string;
  last_updated : string
}.

Definition empty_data (now : string) : Data :=
  mkData [] 1 now now.

#[global] Instance Data_inhabited : Inhabited Data :=
  populate (empty_data "").

(** An [ExpenseDatabase] object: the dict objects that exist, the one
    [self.data] points to, and the content of [self.db_file]. *)
Record Store : Type := mkStore {
  heap : gmap nat Data;
  self_data : nat;
  db_file : file Data
}.

(** [self.data] read through the pointer. *)
Definition data (s : Store) : Data := heap s !!! self_data s.

(** In-place mutation of the dict [self.data] points to. *)
Definition modify_data (f : Data -> Data) (s : Store) : Store :=
  mkStore (<[self_data s := f (data s)]> (heap s)) (self_data s) (db_file s).

(** [self.data = d] for a newly built dict [d]: a fresh object is
    allocated and the pointer moves to it; the old object stays in the
    heap for whoever still refers to it. *)
Definition bind_new_data (d : Data) (s : Store) : Store :=
  let l := fresh (dom (heap s)) in
  mkStore (<[l := d]> (heap s)) l (db_file s).

Definition set_last_updated (now : string) (d : Data) : Data :=
  mkData (expenses d) (next_id d) (data_created_at d) now.

(** [save_data]: stamps [last_updated], then writes the whole dict.  Any
    exception of the write is caught and printed; nothing is raised and
    nothing is returned. *)
Definition save_data (now : string) (w : write_outcome) (s : Store) : Store :=
  let s1 := modify_data (set_last_updated now) s in
  mkStore (heap s1) (self_data s1) (write_json w (data s1) (db_file s1)).

(** [get_next_id]: returns the counter and advances it (no save). *)
Definition get_next_id (s : Store) : Z * Store :=
  (next_id (data s),
   modify_data (fun d => mkData (expenses d) (next_id d + 1)
                           (data_created_at d) (last_updated d)) s).

Definition set_expenses (l : list Expense) (d : Data) : Data :=
  mkData l (next_id d) (data_created_at d) (last_updated d).

(** [add_expense]: appends, saves, returns [True].  The [except] branch
    that returns [False] is not reachable: [append] does not raise and
    [save_data] catches its own exceptions. *)
Definition add_expense (now : string) (w : write_outcome) (expense : Expense)
    (s : Store) : bool * Store :=
  let s1 := modify_data (fun d => set_expenses (expenses d ++ [expense])%list d) s in
  (true, save_data now w s1).

(** [get_expense_by_id]: the first expense with that id. *)
Definition get_expense_by_id (expense_id : Z) (s : Store) : option Expense :=
  List.find (fun e => Z.eqb (id e) expense_id) (expenses (data s)).

(** *** Filtered listing *)

(** [flt and v != flt]. *)
Definition skip_ne (flt : option string) (v : string) : bool :=
  truthy flt && match flt with Some c => negb (String.eqb v c) | None => false end.

(** [flt and v < flt]. *)
Definition skip_lt (flt : option string) (v : string) : bool :=
  truthy flt && match flt with Some c => String.ltb v c | None => false end.

(** [flt and v > flt]. *)
Definition skip_gt (flt : option string) (v : string) : bool :=
  truthy flt && match flt with Some c => String.ltb c v | None => false end.

(** The body of the loop of [get_expenses]: [false] where the loop hits a
    [continue], [true] where it reaches the [append]. *)
Definition kept (f_city f_category start_date end_date : option string)
    (expense : Expense) : bool :=
  if skip_ne f_city (city expense) then false
  else if skip_ne f_category (category expense) then false
  else if skip_lt start_date (date expense) then false
  else if skip_gt end_date (date expense) then false
  else true.

(** [list.sort(key=lambda x: x['date'], reverse=True)].  Python's sort is
    stable, also with [reverse=True]: records with equal dates keep their
    relative order.  It is modelled by the stable insertion sort: a
    record is inserted after the records with a date greater than its own
    and before those with an equal or smaller date that followed it. *)
Fixpoint insert_by_date (x : Expense) (l : list Expense) : list Expense :=
  match l with
  | [] => [x]
  | y :: l' =>
      if String.ltb (date x) (date y) then y :: insert_by_date x l'
      else x :: y :: l'
  end.

Fixpoint sort_by_date_desc (l : list Expense) : list Expense :=
  match l with
  | [] => []
  | x :: l' => insert_by_date x (sort_by_date_desc l')
  end.

Definition get_expenses (f_city f_category start_date end_date : option string)
    (s : Store) : list Expense :=
  sort_by_date_desc
    (List.filter (kept f_city f_category start_date end_date)
       (expenses (data s))).

(** Descending order of the listing: the earlier record is not older
    than the later one. *)
Definition not_older (a b : Expense) : Prop :=
  String.ltb (date a) (date b) = false.

(** The records of one date, in the order of the list. *)
Definition on_date (d : string) (l : list Expense) : list Expense :=
  List.filter (fun e => String.eqb (date e) d) l.

(** *** Updates *)

(** One [key: value] pair of the [updates] dict, for the keys that
    [edit_expense] writes. *)
Inductive field_update : Type :=
| U_activity (v : string)
| U_category (v : string)
| U_city (v : string)
| U_payer (v : string)
| U_date (v : string)
| U_notes (v : string)
| U_original_amount (v : Q)
| U_original_currency (v : string)
| U_total_rmb (v : Q)
| U_sunil_rmb (v : Q)
| U_sunil_gbp (v : Q)
| U_shirin_rmb (v : Q)
| U_shirin_aed (v : Q).

(** [expense[key] = value]. *)
Definition set_field (u : field_update) (e : Expense) : Expense :=
  match u with
  | U_activity v =>
      mkExpense (id e) (city e) v (category e) (date e) (original_amount e)
        (original_currency e) (total_rmb e) (payer e) (sunil_rmb e)
        (shirin_rmb e) (sunil_gbp e) (shirin_aed e) (notes e) (documents e)
        (created_at e)
  | U_category v =>
      mkExpense (id e) (city e) (activity e) v (date e) (original_amount e)
        (original_currency e) (total_rmb e) (payer e) (sunil_rmb e)
        (shirin_rmb e) (sunil_gbp e) (shirin_aed e) (notes e) (documents e)
        (created_at e)
  | U_city v =>
      mkExpense (id e) v (activity e) (category e) (date e) (original_amount e)
        (original_currency e) (total_rmb e) (payer e) (sunil_rmb e)
        (shirin_rmb e) (sunil_gbp e) (shirin_aed e) (notes e) (documents e)
        (created_at e)
  | U_payer v =>
      mkExpense (id e) (city e) (activity e) (category e) (date e)
        (original_amount e) (original_currency e) (total_rmb e) v
        (sunil_rmb e) (shirin_rmb e) (sunil_gbp e) (shirin_aed e) (notes e)
        (documents e) (created_at e)
  | U_date v =>
      mkExpense (id e) (city e) (activity e) (category e) v (original_amount e)
        (original_currency e) (total_rmb e) (payer e) (sunil_rmb e)
        (shirin_rmb e) (sunil_gbp e) (shirin_aed e) (notes e) (documents e)
        (created_at e)
  | U_notes v =>
      mkExpense (id e) (city e) (activity e) (category e) (date e)
        (original_amount e) (original_currency e) (total_rmb e) (payer e)
        (sunil_rmb e) (shirin_rmb e) (sunil_gbp e) (shirin_aed e) v
        (documents e) (created_at e)
  | U_original_amount v =>
      mkExpense (id e) (city e) (activity e) (category e) (date e) v
        (original_currency e) (total_rmb e) (payer e) (sunil_rmb e)
        (shirin_rmb e) (sunil_gbp e) (shirin_aed e) (notes e) (documents e)
        (created_at e)
  | U_original_currency v =>
      mkExpense (id e) (city e) (activity e) (category e) (date e)
        (original_amount e) v (total_rmb e) (payer e) (sunil_rmb e)
        (shirin_rmb e) (sunil_gbp e) (shirin_aed e) (notes e) (documents e)
        (created_at e)
  | U_total_rmb v =>
      mkExpense (id e) (city e) (activity e) (category e) (date e)
        (original_amount e) (original_currency e) v (payer e) (sunil_rmb e)
        (shirin_rmb e) (sunil_gbp e) (shirin_aed e) (notes e) (documents e)
        (created_at e)
  | U_sunil_rmb v =>
      mkExpense (id e) (city e) (activity e) (category e) (date e)
        (original_amount e) (original_currency e) (total_rmb e) (payer e) v
        (shirin_rmb e) (sunil_gbp e) (shirin_aed e) (notes e) (documents e)
        (created_at e)
  | U_sunil_gbp v =>
      mkExpense (id e) (city e) (activity e) (category e) (date e)
        (original_amount e) (original_currency e) (total_rmb e) (payer e)
        (sunil_rmb e) (shirin_rmb e) v (shirin_aed e) (notes e) (documents e)
        (created_at e)
  | U_shirin_rmb v =>
      mkExpense (id e) (city e) (activity e) (category e) (date e)
        (original_amount e) (original_currency e) (total_rmb e) (payer e)
        (sunil_rmb e) v (sunil_gbp e) (shirin_aed e) (notes e) (documents e)
        (created_at e)
  | U_shirin_aed v =>
      mkExpense (id e) (city e) (activity e) (category e) (date e)
        (original_amount e) (original_currency e) (total_rmb e) (payer e)
        (sunil_rmb e) (shirin_rmb e) (sunil_gbp e) v (notes e) (documents e)
        (created_at e)
  end.

(** [for key, value in updates.items(): expense[key] = value]. *)
Definition apply_updates (updates : list field_update) (e : Expense) : Expense :=
  fold_left (fun acc u => set_field u acc) updates e.

(** The loop of [update_expense] over the list: the first expense with
    the id is updated in place; [None] when the loop ends without a hit. *)
Fixpoint update_first (expense_id : Z) (updates : list field_update)
    (l : list Expense) : option (list Expense) :=
  match l with
  | [] => None
  | e :: l' =>
      if Z.eqb (id e) expense_id then Some (apply_updates updates e :: l')
      else cons e <$> update_first expense_id updates l'
  end.

Definition update_expense (now : string) (w : write_outcome) (expense_id : Z)
    (updates : list field_update) (s : Store) : bool * Store :=
  match update_first expense_id updates (expenses (data s)) with
  | Some l => (true, save_data now w (modify_data (set_expenses l) s))
  | None => (false, s)
  end.

(** [delete_expense]: the list is rebuilt without the id; saved and
    [True] only when it became shorter. *)
Definition delete_expense (now : string) (w : write_outcome) (expense_id : Z)
    (s : Store) : bool * Store :=
  let original_count := length (expenses (data s)) in
  let s1 :=
    modify_data
      (fun d => set_expenses
                  (List.filter (fun e => negb (Z.eqb (id e) expense_id))
                     (expenses d)) d) s in
  if Nat.ltb (length (expenses (data s1))) original_count
  then (true, save_data now w s1)
  else (false, s1).

(** *** Documents *)

Definition set_documents (docs : option (list Document)) (e : Expense)
  : Expense :=
  mkExpense (id e) (city e) (activity e) (category e) (date e)
    (original_amount e) (original_currency e) (total_rmb e) (payer e)
    (sunil_rmb e) (shirin_rmb e) (sunil_gbp e) (shirin_aed e) (notes e)
    docs (created_at e).

(** The list comprehension of [delete_document]. *)
Definition without_filename (name : string) (docs : list Document)
  : list Document :=
  List.filter (fun doc => negb (String.eqb (filename doc) name)) docs.

(** The loop of [delete_document]: at the first expense that has the id
    and a ['documents'] key the list is filtered and the loop returns;
    an expense with the id but without the key is passed over. *)
Fixpoint delete_document_loop (expense_id : Z) (name : string)
    (l : list Expense) : option (list Expense) :=
  match l with
  | [] => None
  | e :: l' =>
      if Z.eqb (id e) expense_id then
        match documents e with
        | Some docs =>
            Some (set_documents (Some (without_filename name docs)) e :: l')
        | None => cons e <$> delete_document_loop expense_id name l'
        end
      else cons e <$> delete_document_loop expense_id name l'
  end.

Definition delete_document (now : string) (w : write_outcome) (expense_id : Z)
    (name : string) (s : Store) : bool * Store :=
  match delete_document_loop expense_id name (expenses (data s)) with
  | Some l => (true, save_data now w (modify_data (set_expenses l) s))
  | None => (false, s)
  end.

(** The mutation of [add_document_to_expense] on the expense that
    [get_expense_by_id] returned, i.e. the first one with the id. *)
Fixpoint add_document_loop (expense_id : Z) (doc : Document)
    (l : list Expense) : option (list Expense) :=
  match l with
  | [] => None
  | e :: l' =>
      if Z.eqb (id e) expense_id then
        Some (set_documents (Some (default [] (documents e) ++ [doc])%list) e :: l')
      else cons e <$> add_document_loop expense_id doc l'
  end.

Definition add_document_to_expense (now : string) (w : write_outcome)
    (expense_id : Z) (document_info : Document) (s : Store) : bool * Store :=
  match add_document_loop expense_id document_info (expenses (data s)) with
  | Some l => (true, save_data now w (modify_data (set_expenses l) s))
  | None => (false, s)
  end.

(** *** Backup *)

(** The dict returned by [export_data] and taken by [import_data].  The
    value under ['data'] is a reference to a dict object, not a copy; the
    key may be missing in a dict given to [import_data]. *)
Record Backup : Type := mkBackup {
  backup_data : option nat;
  export_timestamp : string;
  export_version : string
}.

Definition export_data (now : string) (s : Store) : Backup :=
  mkBackup (Some (self_data s)) now "1.0".

(** [import_data]: [self.data] is made to point to the imported dict,
    which is then stamped and written by [save_data]. *)
Definition import_data (now : string) (w : write_outcome)
    (imported_data : Backup) (s : Store) : bool * Store :=
  match backup_data imported_data with
  | Some l =>
      (true, save_data now w (mkStore (heap s) l (db_file s)))
  | None => (false, s)
  end.

(** [clear_all_data]: [self.data] is bound to a new empty dict.  The two
    timestamps of that dict are two calls of the clock. *)
Definition clear_all_data (now1 now2 now3 : string) (w : write_outcome)
    (s : Store) : bool * Store :=
  (true, save_data now3 w (bind_new_data (mkData [] 1 now1 now2) s)).


(** *** Statistics *)

(** The value under one category or city: [{'count': .., 'total_rmb': ..}]. *)
Record Tally : Type := mkTally {
  tally_count : nat;
  tally_total_rmb : Q
}.

(** The value under one category in [get_summary_stats]. *)
Record CategoryStats : Type := mkCategoryStats {
  cat_count : nat;
  cat_total_rmb : Q;
  cat_sunil_rmb : Q;
  cat_sunil_gbp : Q;
  cat_shirin_rmb : Q;
  cat_shirin_aed : Q
}.

(** The dict returned by [get_summary_stats]. *)
Record SummaryStats : Type := mkSummaryStats {
  total_expenses : nat;
  sum_total_rmb : Q;
  sunil_total_rmb : Q;
  sunil_total_gbp : Q;
  shirin_total_rmb : Q;
  shirin_total_aed : Q;
  categories : list (string * CategoryStats);
  cities : list (string * Tally);
  date_range : option string * option string   (* earliest, latest *)
}.

Definition add_to_category (e : Expense) (c : CategoryStats) : CategoryStats :=
  mkCategoryStats (cat_count c + 1)
    (cat_total_rmb c + total_rmb e) (cat_sunil_rmb c + sunil_rmb e)
    (cat_sunil_gbp c + sunil_gbp e) (cat_shirin_rmb c + shirin_rmb e)
    (cat_shirin_aed c + shirin_aed e).

Definition add_to_tally (e : Expense) (t : Tally) : Tally :=
  mkTally (tally_count t + 1) (tally_total_rmb t + total_rmb e).

(** One turn of the loop of [get_summary_stats] (the dates are collected
    apart). *)
Definition summary_step (st : SummaryStats) (e : Expense) : SummaryStats :=
  mkSummaryStats (total_expenses st)
    (sum_total_rmb st + total_rmb e)
    (sunil_total_rmb st + sunil_rmb e)
    (sunil_total_gbp st + sunil_gbp e)
    (shirin_total_rmb st + shirin_rmb e)
    (shirin_total_aed st + shirin_aed e)
    (dict_update (category e) (mkCategoryStats 0 0 0 0 0 0) (add_to_category e)
       (categories st))
    (dict_update (city e) (mkTally 0 0) (add_to_tally e) (cities st))
    (date_range st).

(** [get_summary_stats]: the empty list returns the initial dict at
    once. *)
Definition get_summary_stats (l : list Expense) : SummaryStats :=
  let stats := mkSummaryStats (length l) 0 0 0 0 0 [] [] (None, None) in
  match l with
  | [] => stats
  | _ =>
      let st := fold_left summary_step l stats in
      let dates := map date l in
      mkSummaryStats (total_expenses st) (sum_total_rmb st)
        (sunil_total_rmb st) (sunil_total_gbp st) (shirin_total_rmb st)
        (shirin_total_aed st) (categories st) (cities st)
        (py_min dates, py_max dates)
  end.

(** The dict returned by [get_database_stats]; the key ['date_range'] is
    there only when the store has expenses. *)
Record DatabaseStats : Type := mkDatabaseStats {
  db_total_expenses : nat;
  total_amount_rmb : Q;
  db_sunil_total_gbp : Q;
  db_shirin_total_aed : Q;
  db_created_at : string;
  db_last_updated : string;
  db_next_id : Z;
  db_categories : list (string * Tally);
  db_cities : list (string * Tally);
  db_date_range : option (option string * option string);
  total_documents : nat
}.

Definition get_database_stats (s : Store) : DatabaseStats :=
  let l := expenses (data s) in
  mkDatabaseStats (length l)
    (py_sum (map total_rmb l))
    (py_sum (map sunil_gbp l))
    (py_sum (map shirin_aed l))
    (data_created_at (data s))
    (last_updated (data s))
    (next_id (data s))
    (fold_left
       (fun d e => dict_update (category e) (mkTally 0 0) (add_to_tally e) d)
       l [])
    (fold_left
       (fun d e => dict_update (city e) (mkTally 0 0) (add_to_tally e) d)
       l [])
    (match l with
     | [] => None
     | _ => Some (py_min (map date l), py_max (map date l))
     end)
    (fold_left
       (fun n e =>
          match documents e with
          | Some docs => (n + length docs)%nat
          | None => n
          end)
       l 0%nat).

(** One entry of [get_all_documents]: four keys of the expense and the
    keys of the document. *)
Record DocumentInfo : Type := mkDocumentInfo {
  expense_id : Z;
  expense_activity : string;
  expense_date : string;
  expense_city : string;
  doc : Document
}.

(** [get_all_documents]: the documents of all expenses, newest upload
    first. *)
Definition get_all_documents (s : Store) : list DocumentInfo :=
  sort_desc
    (fun a b => String.ltb (uploaded_at (doc a)) (uploaded_at (doc b)))
    (flat_map
       (fun e =>
          map (mkDocumentInfo (id e) (activity e) (date e) (city e))
            (default [] (documents e)))
       (expenses (data s))).

(** Every record of the store has an id below the counter and no two
    records share an id. *)
Definition ids_fresh (d : Data) : Prop :=
  NoDup (map id (expenses d))
  /\ Forall (fun e => (id e < next_id d)%Z) (expenses d).

(** The two RMB shares of a record add up to its RMB total. *)
Definition balanced (e : Expense) : Prop :=
  (sunil_rmb e + shirin_rmb e == total_rmb e)%Q.

End Database.

(** ** [currency.py] *)
Module Currency.

(** What [requests.get] and the decoding of its result deliver.
    [Unreachable]: the request raises (connection error, timeout).
    [Http code body]: a response with that status; [body] is [Some rd]
    when [response.json()] is a dict whose ['rates'] entry is the dict
    [rd] (the empty dict when the key is missing), and [None] when
    [response.json()] or one of the two [.get] calls raises. *)
Inductive response (V : Type) : Type :=
| Unreachable
| Http (code : Z) (body : option (gmap string V)).
Arguments Unreachable {V}.
Arguments Http {V} code body.

Section RateCache.

(** The rate values are whatever JSON holds; the cache only stores them,
    builds them from float literals and formats two of them. *)
Context {V : Type}.
(** A float literal of the source as a rate value. *)
Variable of_float : Q -> V.
(** Whether [f"{v:.4f}"] succeeds (it does on numbers and raises on
    [None] or a string). *)
Variable formats_4f : V -> bool.
(** [datetime.now() - datetime.fromisoformat(t) > timedelta(hours=4)];
    [None] when [fromisoformat] raises [ValueError]. *)
Variable older_than_4h : string -> option bool.

(** The JSON document of [self.rates_file]. *)
Record RatesFile : Type := mkRatesFile {
  file_rates : gmap string V;
  file_last_updated : option string;
  base_currency : string
}.

(** A [CurrencyConverter] object.  [last_updated] is [None] or an ISO
    string, as [save_rates] writes it. *)
Record Converter : Type := mkConverter {
  rates : gmap string V;
  last_updated : option string;
  rates_file : file RatesFile
}.

(** [save_rates]: exceptions of the write are caught and printed. *)
Definition save_rates (w : write_outcome) (c : Converter) : Converter :=
  mkConverter (rates c) (last_updated c)
    (write_json w (mkRatesFile (rates c) (last_updated c) "CNY") (rates_file c)).

(** [rates_data.get(k, self.rates.get(k, d))]. *)
Definition pick (rates_data old : gmap string V) (k : string) (d : Q) : V :=
  default (default (of_float d) (old !! k)) (rates_data !! k).

(** The dict literal assigned to [self.rates] after a 200 response. *)
Definition extract_rates (rates_data old : gmap string V) : gmap string V :=
  <["GBP" := pick rates_data old "GBP" 0.11%Q]>
    (<["AED" := pick rates_data old "AED" 0.52%Q]>
       (<["USD" := pick rates_data old "USD" 0.14%Q]>
          (<["EUR" := pick rates_data old "EUR" 0.13%Q]> ∅))).

(** [self.rates[k]] inside the f-string; the key is always there after
    [extract_rates]. *)
Definition formats_rate (c : Converter) (k : string) : bool :=
  match rates c !! k with
  | Some v => formats_4f v
  | None => false
  end.

(** One [try] block of [fetch_live_rates].  The result is [true] when
    the block reaches [return True] and [false] when control leaves the
    block otherwise: a status other than 200, or an exception, caught by
    the [except] clause.  The assignment to [self.rates], the stamp and
    [save_rates] come before the [print] that formats the GBP and AED
    rates, so an exception of that [print] leaves them done. *)
Definition attempt (now : string) (w : write_outcome) (r : response V)
    (c : Converter) : bool * Converter :=
  match r with
  | Unreachable => (false, c)
  | Http code body =>
      if Z.eqb code 200 then
        match body with
        | None => (false, c)
        | Some rates_data =>
            let c1 :=
              save_rates w
                (mkConverter (extract_rates rates_data (rates c)) (Some now)
                   (rates_file c)) in
            if formats_rate c1 "GBP" && formats_rate c1 "AED"
            then (true, c1) else (false, c1)
        end
      else (false, c)
  end.

(** The remote world during one [fetch_live_rates]: the answers of the
    two endpoints, and clock and write outcome for each block. *)
Record Remote : Type := mkRemote {
  primary : response V;
  primary_now : string;
  primary_write : write_outcome;
  backup : response V;
  backup_now : string;
  backup_write : write_outcome
}.

(** [fetch_live_rates]: the backup endpoint is tried when the first
    block did not return. *)
Definition fetch_live_rates (net : Remote) (c : Converter) : bool * Converter :=
  let '(ok, c1) := attempt (primary_now net) (primary_write net) (primary net) c in
  if ok then (true, c1)
  else attempt (backup_now net) (backup_write net) (backup net) c1.

(** [should_update_rates]. *)
Definition should_update_rates (c : Converter) : bool :=
  if negb (truthy (last_updated c)) then true
  else match last_updated c with
       | Some t => default true (older_than_4h t)
       | None => true
       end.

(** [update_rates]. *)
Definition update_rates (net : Remote) (c : Converter) : bool * Converter :=
  if should_update_rates c then fetch_live_rates net c
  else (true, c).

(** [get_rates]: the mapping returned and the converter afterwards. *)
Definition get_rates (net : Remote) (c : Converter)
  : gmap string V * Converter :=
  let c1 := snd (update_rates net c) in
  (rates c1, c1).

(** A remote source is out of service when the request raises, the
    status is not 200, or the body cannot be decoded into a rate dict.
    This is not the only way for a block of [fetch_live_rates] to fail:
    see [attempt]. *)
Definition source_fails (r : response V) : Prop :=
  match r with
  | Unreachable => True
  | Http code body => code <> 200%Z \/ body = None
  end.

End RateCache.

Arguments RatesFile V : clear implicits.
Arguments Converter V : clear implicits.
Arguments Remote V : clear implicits.

Section RateCacheStart.

Context {V : Type}.
Variable of_float : Q -> V.

(** [set_default_rates]: the four hard-coded rates, stamped and saved. *)
Definition set_default_rates (now : string) (w : write_outcome)
    (c : Converter V) : Converter V :=
  save_rates w
    (mkConverter
       (<["GBP" := of_float 0.11%Q]>
          (<["AED" := of_float 0.52%Q]>
             (<["USD" := of_float 0.14%Q]>
                (<["EUR" := of_float 0.13%Q]> ∅))))
       (Some now) (rates_file c)).

(** [load_rates].  Without a file nothing is loaded and nothing is set.
    A file that does not hold a JSON document makes [json.load] raise
    [JSONDecodeError], which installs the defaults.  A file written by
    [save_rates] holds both keys that are read. *)
Definition load_rates (now : string) (w : write_outcome) (c : Converter V)
  : Converter V :=
  match rates_file c with
  | NoFile => c
  | Saved rf =>
      mkConverter (file_rates rf) (file_last_updated rf) (rates_file c)
  | Truncated => set_default_rates now w c
  end.

(** [__init__]: an empty mapping and no stamp, then [load_rates]. *)
Definition init (now : string) (w : write_outcome) (f : file (RatesFile V))
  : Converter V :=
  load_rates now w (mkConverter ∅ None f).

End RateCacheStart.

(** The comparison of [should_update_rates] on a stamp that parses:
    [datetime.now() - last_update > timedelta(hours=4)].  Date-times are
    counted in microseconds, the resolution of [datetime] and
    [timedelta]; [fromisoformat] is [datetime.fromisoformat], [None]
    where it raises [ValueError]; [clock] is [datetime.now()].  Stamps
    are the ones [isoformat] writes for [datetime.now()]: strings without
    a UTC offset. *)
Definition four_hours : Z := (4 * 60 * 60 * 1000000)%Z.

Definition age_exceeds_4h (fromisoformat : string -> option Z) (clock : Z)
    (t : string) : option bool :=
  match fromisoformat t with
  | Some last_update => Some (Z.ltb four_hours (clock - last_update))
  | None => None
  end.

End Currency.

(** ** [commands.py]: the add and edit commands *)
Module Commands.
Import Database.

Definition CITIES : list string :=
  ["Abu Dhabi"; "Beijing"; "Shanghai"; "Guilin";
   "Chengdu"; "Chongqing"; "London"; "Yangshuo"].

Definition CATEGORIES : list string :=
  ["Official Stuff"; "Transportation"; "Accommodation"; "Food";
   "Activities"; "Shopping"; "Connectivity"; "Miscellaneous"].

Definition PAYERS : list string := ["Sunil"; "Shirin"; "Couple"].

Definition CURRENCIES : list string := ["RMB"; "GBP"; "AED"; "USD"; "EUR"].

(** The cog: [self.db] and [self.currency].  In the commands the rates
    are numbers: every use of them is an arithmetic one. *)
Record Bot : Type := mkBot {
  db : Store;
  currency : Currency.Converter Q
}.

(** What one command invocation sees of the outside. *)
Record Env : Type := mkEnv {
  validate_date : string -> bool;   (* [utils.validate_date] *)
  today : string;                   (* [datetime.now().strftime("%Y-%m-%d")] *)
  now : string;                     (* [datetime.now().isoformat()] *)
  older_than_4h : string -> option bool;
  net : Currency.Remote Q;
  db_write : write_outcome
}.

(** The message a command answers with. *)
Inductive reply : Type :=
| InvalidCity
| InvalidCategory
| InvalidPayer
| InvalidCurrency
| InvalidDate
| InvalidAmount
| NotFound
| NoChanges
| UpdateFailed
| ErrorReply (e : exn)            (* the handler of the outer [try] *)
| ExpenseAdded (e : Expense)
| ExpenseUpdated (e : Expense).

(** [await self.currency.get_rates()]. *)
Definition get_rates (env : Env) (b : Bot) : gmap string Q * Bot :=
  let '(r, c) :=
    Currency.get_rates (fun q => q) (fun _ => true) (older_than_4h env)
      (net env) (currency b) in
  (r, mkBot (db b) c).

(** [rates.get(k, d)]. *)
Definition rate (rates : gmap string Q) (k : string) (d : Q) : Q :=
  default d (rates !! k).

(** [1 / r if r != 0 else fallback]. *)
Definition inverse_or (r fallback : Q) : exn + Q :=
  if negb (Qeq_bool r 0) then py_div 1 r else inr fallback.

(** [amount * x] for a computation [x] that may have raised. *)
Definition times (amount : Q) (x : exn + Q) : exn + Q :=
  match x with
  | inr r => inr (amount * r)%Q
  | inl e => inl e
  end.

(** The conversion of the entered amount to RMB in [add_expense]. *)
Definition add_amount_rmb (rates : gmap string Q) (amount : Q)
    (cur : string) : exn + Q :=
  if String.eqb cur "RMB" then inr amount
  else if String.eqb cur "GBP" then
    times amount (inverse_or (rate rates "GBP" 0.11) 9.09)
  else if String.eqb cur "AED" then
    times amount (inverse_or (rate rates "AED" 0.52) 1.92)
  else if String.eqb cur "USD" then
    times amount (inverse_or (rate rates "USD" 0.14) 7.14)
  else if String.eqb cur "EUR" then
    times amount (inverse_or (rate rates "EUR" 0.13) 7.69)
  else inr amount.

(** The four derived amounts: [sunil_rmb], [shirin_rmb], [sunil_gbp],
    [shirin_aed]. *)
Record Shares : Type := mkShares {
  s_sunil_rmb : Q;
  s_shirin_rmb : Q;
  s_sunil_gbp : Q;
  s_shirin_aed : Q
}.

(** The split of [add_expense]. *)
Definition add_shares (rates : gmap string Q) (amount_rmb : Q)
    (payer : string) : Shares :=
  if String.eqb payer "Couple" then
    let sunil_rmb := (amount_rmb / 2)%Q in
    let shirin_rmb := (amount_rmb / 2)%Q in
    mkShares sunil_rmb shirin_rmb
      (sunil_rmb * rate rates "GBP" 0.11)%Q
      (shirin_rmb * rate rates "AED" 0.52)%Q
  else if String.eqb payer "Sunil" then
    mkShares amount_rmb 0 (amount_rmb * rate rates "GBP" 0.11)%Q 0
  else
    mkShares 0 amount_rmb 0 (amount_rmb * rate rates "AED" 0.52)%Q.

(** [add_expense] of the cog. *)
Definition add_expense (env : Env) (city activity : string) (amount : Q)
    (cur category payer : string) (date notes : option string) (b : Bot)
  : reply * Bot :=
  if negb (str_in city CITIES) then (InvalidCity, b)
  else if negb (str_in category CATEGORIES) then (InvalidCategory, b)
  else if negb (str_in payer PAYERS) then (InvalidPayer, b)
  else if negb (str_in cur CURRENCIES) then (InvalidCurrency, b)
  else if truthy date && negb (validate_date env (default "" date))
  then (InvalidDate, b)
  else
    let expense_date := if truthy date then default "" date else today env in
    if Qle_bool amount 0 then (InvalidAmount, b)
    else
      let '(rates, b1) := get_rates env b in
      match add_amount_rmb rates amount cur with
      | inl e => (ErrorReply e, b1)
      | inr amount_rmb =>
          let sh := add_shares rates amount_rmb payer in
          let '(new_id, db1) := get_next_id (db b1) in
          let expense :=
            mkExpense new_id city activity category expense_date amount cur
              amount_rmb payer (s_sunil_rmb sh) (s_shirin_rmb sh)
              (s_sunil_gbp sh) (s_shirin_aed sh) (str_or notes "")
              (Some []) (now env) in
          let '(_, db2) :=
            Database.add_expense (now env) (db_write env) expense db1 in
          (ExpenseAdded expense, mkBot db2 (currency b1))
      end.

(** [o and o not in l]. *)
Definition given_and_not_in (o : option string) (l : list string) : bool :=
  truthy o && negb (str_in (default "" o) l).

(** The conversion of the new amount to RMB in [edit_expense]. *)
Definition edit_amount_rmb (rates : gmap string Q) (amount : Q)
    (update_currency : string) : exn + Q :=
  if String.eqb update_currency "RMB" then inr amount
  else if String.eqb update_currency "GBP" then
    py_div amount (rate rates "GBP" 0.11)
  else if String.eqb update_currency "AED" then
    py_div amount (rate rates "AED" 0.52)
  else if String.eqb update_currency "USD" then
    py_div amount (rate rates "USD" 0.14)
  else if String.eqb update_currency "EUR" then
    py_div amount (rate rates "EUR" 0.13)
  else inr amount.

(** The split of [edit_expense]: the two RMB shares by payer, then the
    two home-currency amounts from them. *)
Definition edit_shares (rates : gmap string Q) (amount_rmb : Q)
    (payer : string) : Shares :=
  let '(sunil_rmb, shirin_rmb) :=
    if String.eqb payer "Couple" then ((amount_rmb / 2)%Q, (amount_rmb / 2)%Q)
    else if String.eqb payer "Sunil" then (amount_rmb, 0%Q)
    else (0%Q, amount_rmb) in
  mkShares sunil_rmb shirin_rmb
    (sunil_rmb * rate rates "GBP" 0.11)%Q
    (shirin_rmb * rate rates "AED" 0.52)%Q.

(** [updates[key] = value] when the parameter is not [None]. *)
Definition given {A : Type} (mk : A -> field_update) (o : option A)
  : list field_update :=
  match o with
  | Some v => [mk v]
  | None => []
  end.

(** The entries of [updates] that do not depend on the amount. *)
Definition plain_updates (activity category city payer date notes
    : option string) : list field_update :=
  (given U_activity activity ++ given U_category category
   ++ given U_city city ++ given U_payer payer ++ given U_date date
   ++ given U_notes notes)%list.

(** The entries added by [updates.update({...})] in the amount block. *)
Definition amount_updates (amount : Q) (update_currency : string)
    (amount_rmb : Q) (sh : Shares) : list field_update :=
  [U_original_amount amount; U_original_currency update_currency;
   U_total_rmb amount_rmb; U_sunil_rmb (s_sunil_rmb sh);
   U_sunil_gbp (s_sunil_gbp sh); U_shirin_rmb (s_shirin_rmb sh);
   U_shirin_aed (s_shirin_aed sh)].

(** The last steps of [edit_expense], from [if not updates] on. *)
Definition commit_updates (env : Env) (expense_id : Z)
    (updates : list field_update) (b : Bot) : reply * Bot :=
  match updates with
  | [] => (NoChanges, b)
  | _ =>
      let '(success, db1) :=
        update_expense (now env) (db_write env) expense_id updates (db b) in
      if success then
        match get_expense_by_id expense_id db1 with
        | Some updated_expense =>
            (ExpenseUpdated updated_expense, mkBot db1 (currency b))
        | None => (ErrorReply TypeError, mkBot db1 (currency b))
        end
      else (UpdateFailed, mkBot db1 (currency b))
  end.

(** [edit_expense] of the cog. *)
Definition edit_expense (env : Env) (expense_id : Z) (amount : option Q)
    (cur activity category city payer date notes : option string) (b : Bot)
  : reply * Bot :=
  match get_expense_by_id expense_id (db b) with
  | None => (NotFound, b)
  | Some expense =>
      if given_and_not_in cur CURRENCIES then (InvalidCurrency, b)
      else if given_and_not_in category CATEGORIES then (InvalidCategory, b)
      else if given_and_not_in city CITIES then (InvalidCity, b)
      else if given_and_not_in payer PAYERS then (InvalidPayer, b)
      else if truthy date && negb (validate_date env (default "" date))
      then (InvalidDate, b)
      else if match amount with Some a => Qle_bool a 0 | None => false end
      then (InvalidAmount, b)
      else
        let updates := plain_updates activity category city payer date notes in
        match amount with
        | Some a =>
            let update_currency := str_or cur (original_currency expense) in
            let '(rates, b1) := get_rates env b in
            match edit_amount_rmb rates a update_currency with
            | inl e => (ErrorReply e, b1)
            | inr amount_rmb =>
                let sh :=
                  edit_shares rates amount_rmb
                    (default (Database.payer expense) payer) in
                commit_updates env expense_id
                  (updates ++ amount_updates a update_currency amount_rmb sh)%list
                  b1
            end
        | None => commit_updates env expense_id updates b
        end
  end.

(** The four derived fields of a record are the ones the split gives
    for the total and the payer of the record under [rates]. *)
Definition shares_recomputed (rates : gmap string Q) (e : Expense) : Prop :=
  let sh := edit_shares rates (total_rmb e) (Database.payer e) in
  (sunil_rmb e == s_sunil_rmb sh)%Q
  /\ (shirin_rmb e == s_shirin_rmb sh)%Q
  /\ (sunil_gbp e == s_sunil_gbp sh)%Q
  /\ (shirin_aed e == s_shirin_aed sh)%Q.

(** *** The list command *)

(** What [list_expenses] answers: a rejection, or the records shown and
    the number of records that matched. *)
Inductive list_reply : Type :=
| LimitOutOfRange
| NoExpensesFound
| ExpenseList (shown : list Expense) (matched : nat).

(** [limit or 10]. *)
Definition limit_or_10 (limit : option Z) : Z :=
  match limit with
  | Some n => if Z.eqb n 0 then 10%Z else n
  | None => 10%Z
  end.

(** [list_expenses] of the cog: the store filters by city, the command
    filters by category and cuts the list. *)
Definition list_expenses (limit : option Z) (f_city f_category : option string)
    (b : Bot) : list_reply :=
  if match limit with
     | Some n => negb (Z.eqb n 0) && (Z.ltb n 1 || Z.ltb 20 n)
     | None => false
     end
  then LimitOutOfRange
  else
    let expenses := get_expenses f_city None None None (db b) in
    let expenses :=
      if truthy f_category then
        List.filter
          (fun exp => String.eqb (category exp) (default "" f_category))
          expenses
      else expenses in
    match expenses with
    | [] => NoExpensesFound
    | _ =>
        ExpenseList (firstn (Z.to_nat (limit_or_10 limit)) expenses)
          (length expenses)
    end.

(** *** The spending summary *)





End Commands.

(** ** Concrete stores, converters and environments

    Small inputs on which the operations are run. *)
Module Sample.
Import Database.

Definition receipt : Document :=
  mkDocument "receipt.pdf" "documents/1_receipt.pdf" 2048 "2025-07-01T10:00:00".

(** 100 RMB of food in Beijing, paid jointly, with one attachment. *)
Definition dinner : Expense :=
  mkExpense 1 "Beijing" "Dinner" "Food" "2025-07-01" 100 "RMB" 100 "Couple"
    50 50 5.5 26 "" (Some [receipt]) "2025-07-01T09:00:00".

(** 40 RMB of transport in Shanghai one day later, paid by Shirin. *)
Definition metro : Expense :=
  mkExpense 2 "Shanghai" "Metro" "Transportation" "2025-07-02" 40 "RMB" 40
    "Shirin" 0 40 0 20.8 "" (Some []) "2025-07-02T09:00:00".

(** A second record of the first day. *)
Definition tea : Expense :=
  mkExpense 3 "Beijing" "Tea" "Food" "2025-07-01" 20 "RMB" 20 "Sunil"
    20 0 2.2 0 "" (Some []) "2025-07-02T11:00:00".

Definition ledger_data : Data :=
  mkData [dinner; metro; tea] 4 "2025-06-30T08:00:00" "2025-07-02T11:00:00".

Definition ledger : Store :=
  mkStore {[ 0%nat := ledger_data ]} 0%nat (Saved ledger_data).

Definition empty_store : Store :=
  mkStore {[ 0%nat := empty_data "2025-06-30T08:00:00" ]} 0%nat NoFile.

(** The default rates of [set_default_rates], stamped. *)
Definition default_rates : gmap string Q :=
  <["GBP" := 0.11%Q]> (<["AED" := 0.52%Q]>
    (<["USD" := 0.14%Q]> (<["EUR" := 0.13%Q]> ∅))).

Definition converter (rates : gmap string Q) : Currency.Converter Q :=
  Currency.mkConverter rates (Some "2025-07-02T10:00:00") NoFile.

(** Both endpoints out of reach. *)
Definition offline : Currency.Remote Q :=
  Currency.mkRemote Currency.Unreachable "2025-07-02T12:00:00" WriteOk
    Currency.Unreachable "2025-07-02T12:00:01" WriteOk.

(** An invocation at noon of the second day; the held rates are stale
    when [stale] is set. *)
Definition env (stale : bool) (w : write_outcome) : Commands.Env :=
  Commands.mkEnv (fun _ => true) "2025-07-02" "2025-07-02T12:00:00"
    (fun _ => Some stale) offline w.

Definition bot (rates : gmap string Q) : Commands.Bot :=
  Commands.mkBot ledger (converter rates).

(** A rate mapping that holds a zero rate, and one that holds 0.5, for
    the pound. *)
Definition zero_gbp : gmap string Q := <["GBP" := 0%Q]> default_rates.

(** The first endpoint answers 200 with new pound and dirham rates. *)
Definition online : Currency.Remote Q :=
  Currency.mkRemote
    (Currency.Http 200 (Some (<["GBP" := 0.12%Q]> (<["AED" := 0.5%Q]> ∅))))
    "2025-07-02T15:00:00" WriteOk
    Currency.Unreachable "2025-07-02T15:00:01" WriteOk.

(** A parser that knows the stamp of [converter] and counts the
    microseconds from it. *)
Definition fromisoformat (t : string) : option Z :=
  if String.eqb t "2025-07-02T10:00:00" then Some 0%Z else None.

Definition three_hours_later : Z := (3 * 60 * 60 * 1000000)%Z.
Definition five_hours_later : Z := (5 * 60 * 60 * 1000000)%Z.

(** Rate values as JSON has them: a number or [null]; [null] cannot be
    formatted with [:.4f]. *)
Definition json_rate : Type := option Q.
Definition json_formats (v : json_rate) : bool :=
  match v with Some _ => true | None => false end.

(** The first endpoint answers 200 with a [null] pound rate, the second
    one is out of reach. *)
Definition null_gbp_remote : Currency.Remote json_rate :=
  Currency.mkRemote
    (Currency.Http 200 (Some (<["GBP" := None]> ∅)))
    "2025-07-02T12:00:00" WriteOk
    Currency.Unreachable "2025-07-02T12:00:01" WriteOk.

Definition json_converter : Currency.Converter json_rate :=
  Currency.mkConverter (Some <$> default_rates) None NoFile.

End Sample.

(** * Properties *)

(** ** The store: reading and writing through the pointer *)
Section StoreFacts.
Import Database.

Lemma data_modify_data (f : Data -> Data) (s : Store) :
  data (modify_data f s) = f (data s).
Proof.
  unfold data, modify_data; simpl.
  apply lookup_total_insert_eq.
Qed.

Lemma data_save_data (now : string) (w : write_outcome) (s : Store) :
  data (save_data now w s) = set_last_updated now (data s).
Proof.
  unfold save_data.
  change (data (modify_data (set_last_updated now) s)
          = set_last_updated now (data s)).
  apply data_modify_data.
Qed.

Lemma db_file_save_data (now : string) (w : write_outcome) (s : Store) :
  db_file (save_data now w s)
  = write_json w (set_last_updated now (data s)) (db_file s).
Proof.
  unfold save_data; simpl.
  f_equal. apply data_modify_data.
Qed.

End StoreFacts.

(** ** Filtered listing *)
Section Listing.
Import Database.

Lemma ltb_irrefl (a : string) : String.ltb a a = false.
Proof.
  unfold String.ltb.
  pose proof (String.compare_antisym a a) as H.
  destruct (String.compare a a); simpl in H; congruence.
Qed.

Lemma ltb_asym (a b : string) : String.ltb a b = true -> String.ltb b a = false.
Proof.
  unfold String.ltb. rewrite (String.compare_antisym b a).
  destruct (String.compare a b); simpl; congruence.
Qed.

(** [a <= b] is [not (b < a)]. *)
Lemma leb_ltb (a b : string) : String.leb a b = negb (String.ltb b a).
Proof.
  unfold String.leb, String.ltb. rewrite (String.compare_antisym b a).
  destruct (String.compare a b); reflexivity.
Qed.

(** Neither smaller nor greater means equal. *)
Lemma ltb_both_false (a b : string) :
  String.ltb a b = false -> String.ltb b a = false -> a = b.
Proof.
  unfold String.ltb. rewrite (String.compare_antisym b a).
  destruct (String.compare a b) eqn:E; simpl; try congruence.
  intros _ _. apply String.compare_eq_iff; exact E.
Qed.

Lemma skip_ne_empty (v : string) : skip_ne (Some "") v = skip_ne None v.
Proof. reflexivity. Qed.

Lemma kept_empty_city (f_category start_date end_date : option string)
    (e : Expense) :
  kept (Some "") f_category start_date end_date e
  = kept None f_category start_date end_date e.
Proof. reflexivity. Qed.

Lemma kept_empty_category (f_city start_date end_date : option string)
    (e : Expense) :
  kept f_city (Some "") start_date end_date e
  = kept f_city None start_date end_date e.
Proof. unfold kept. rewrite skip_ne_empty. reflexivity. Qed.

(** With both bounds set to the same non-empty date, the loop keeps the
    records of that date and no other. *)
Lemma kept_single_date (D : string) (e : Expense) :
  D <> "" ->
  kept None None (Some D) (Some D) e = String.eqb (date e) D.
Proof.
  intros HD. unfold kept, skip_ne, skip_lt, skip_gt, truthy. simpl.
  destruct (String.eqb_spec D "") as [->|_]; [congruence|]. simpl.
  destruct (String.eqb_spec (date e) D) as [->|Hne].
  - rewrite ltb_irrefl. reflexivity.
  - destruct (String.ltb (date e) D) eqn:E1; [reflexivity|].
    destruct (String.ltb D (date e)) eqn:E2; [reflexivity|].
    exfalso. apply Hne. apply ltb_both_false; assumption.
Qed.

(** With two non-empty bounds the loop keeps the records whose date is
    not below the first and not above the second. *)
Lemma kept_date_range (a b : string) (e : Expense) :
  a <> "" -> b <> "" ->
  kept None None (Some a) (Some b) e
  = negb (String.ltb (date e) a) && negb (String.ltb b (date e)).
Proof.
  intros Ha Hb. unfold kept, skip_ne, skip_lt, skip_gt, truthy. simpl.
  destruct (String.eqb_spec a "") as [->|_]; [congruence|].
  destruct (String.eqb_spec b "") as [->|_]; [congruence|]. simpl.
  destruct (String.ltb (date e) a), (String.ltb b (date e)); reflexivity.
Qed.

Lemma insert_by_date_hd (x a : Expense) (l : list Expense) :
  not_older a x -> HdRel not_older a l -> HdRel not_older a (insert_by_date x l).
Proof.
  intros Hax Hl. destruct l as [|y l']; simpl.
  - constructor; exact Hax.
  - destruct (String.ltb (date x) (date y)).
    + constructor. inversion Hl; assumption.
    + constructor; exact Hax.
Qed.

Lemma insert_by_date_sorted (x : Expense) (l : list Expense) :
  Sorted not_older l -> Sorted not_older (insert_by_date x l).
Proof.
  induction l as [|y l' IH]; intros Hs; simpl.
  - repeat constructor.
  - inversion Hs as [|? ? Hs' Hhd]; subst.
    destruct (String.ltb (date x) (date y)) eqn:E.
    + constructor; [apply IH; exact Hs'|].
      apply insert_by_date_hd; [|exact Hhd].
      unfold not_older. apply ltb_asym; exact E.
    + constructor; [exact Hs|]. constructor. exact E.
Qed.

Lemma sort_by_date_desc_sorted (l : list Expense) :
  Sorted not_older (sort_by_date_desc l).
Proof.
  induction l as [|x l' IH]; simpl.
  - constructor.
  - apply insert_by_date_sorted; exact IH.
Qed.

Lemma insert_by_date_perm (x : Expense) (l : list Expense) :
  Permutation (insert_by_date x l) (x :: l).
Proof.
  induction l as [|y l' IH]; simpl.
  - apply Permutation_refl.
  - destruct (String.ltb (date x) (date y)).
    + eapply Permutation_trans; [apply perm_skip; exact IH|apply perm_swap].
    + apply Permutation_refl.
Qed.

Lemma sort_by_date_desc_perm (l : list Expense) :
  Permutation (sort_by_date_desc l) l.
Proof.
  induction l as [|x l' IH]; simpl.
  - constructor.
  - eapply Permutation_trans; [apply insert_by_date_perm|].
    apply perm_skip; exact IH.
Qed.

(** Stability: inserting does not reorder the records of any one date. *)
Lemma insert_by_date_stable (d : string) (x : Expense) (l : list Expense) :
  on_date d (insert_by_date x l) = on_date d (x :: l).
Proof.
  induction l as [|y l' IH]; [reflexivity|].
  simpl. destruct (String.ltb (date x) (date y)) eqn:E; [|reflexivity].
  unfold on_date in *. simpl in *. rewrite IH.
  destruct (String.eqb_spec (date x) d) as [Hx|Hx];
    destruct (String.eqb_spec (date y) d) as [Hy|Hy]; try reflexivity.
  rewrite Hx, Hy, ltb_irrefl in E. discriminate.
Qed.

Lemma sort_by_date_desc_stable (d : string) (l : list Expense) :
  on_date d (sort_by_date_desc l) = on_date d l.
Proof.
  induction l as [|x l' IH]; [reflexivity|].
  simpl. rewrite insert_by_date_stable.
  unfold on_date in *. simpl. rewrite IH. reflexivity.
Qed.

(** A list whose records all carry one date is left as it is. *)
Lemma sort_by_date_desc_same_date (d : string) (l : list Expense) :
  Forall (fun e => date e = d) l -> sort_by_date_desc l = l.
Proof.
  induction 1 as [|x l' Hx Hl IH]; [reflexivity|].
  simpl. rewrite IH. destruct l' as [|y l'']; [reflexivity|].
  simpl. inversion Hl; subst.
  replace (date y) with (date x) by congruence.
  rewrite ltb_irrefl. reflexivity.
Qed.

Lemma on_date_all (d : string) (l : list Expense) :
  Forall (fun e => date e = d) (on_date d l).
Proof.
  apply List.Forall_forall. intros e He. unfold on_date in He.
  apply List.filter_In in He. destruct He as [_ He].
  apply String.eqb_eq; exact He.
Qed.

(** C10. An empty string given as the city filter, or as the category
    filter, of [get_expenses] yields the same sequence as no filter at
    that place: it never restricts the listing to the records whose city
    or category is the empty string. *)
Theorem get_expenses_empty_string_is_no_filter
    (s : Store) (f_city f_category start_date end_date : option string) :
  get_expenses (Some "") f_category start_date end_date s
  = get_expenses None f_category start_date end_date s
  /\ get_expenses f_city (Some "") start_date end_date s
     = get_expenses f_city None start_date end_date s
  /\ get_expenses (Some "") (Some "") start_date end_date s
     = get_expenses None None start_date end_date s.
Proof.
  unfold get_expenses.
  rewrite !(List.filter_ext _ _ (kept_empty_city _ _ _)).
  rewrite !(List.filter_ext _ _ (kept_empty_category _ _ _)).
  repeat split; reflexivity.
Qed.

(** C6. With [start_date = end_date = D] for a date [D] (a non-empty
    string) and no other filter, [get_expenses] returns exactly the
    records whose date equals [D], in insertion order.  The two bounds are
    inclusive under the lexicographic order of the date strings.  Every
    result of [get_expenses] is sorted by date descending, is a
    rearrangement of the records the filters keep, and lists the records
    of one date in insertion order (the tie-break of the stable sort). *)
Theorem get_expenses_single_date_and_order (s : Store) (D : string) :
  D <> "" ->
  get_expenses None None (Some D) (Some D) s = on_date D (expenses (data s))
  /\ (forall (a b : string) (e : Expense),
        a <> "" -> b <> "" ->
        In e (get_expenses None None (Some a) (Some b) s)
        <-> In e (expenses (data s))
            /\ String.leb a (date e) = true /\ String.leb (date e) b = true)
  /\ (forall f_city f_category start_date end_date : option string,
        let kept_records :=
          List.filter (kept f_city f_category start_date end_date)
            (expenses (data s)) in
        let result := get_expenses f_city f_category start_date end_date s in
        Sorted not_older result
        /\ Permutation result kept_records
        /\ forall d : string, on_date d result = on_date d kept_records).
Proof.
  intros HD. split; [|split].
  - unfold get_expenses.
    rewrite (List.filter_ext _ _ (fun e => kept_single_date D e HD)).
    apply (sort_by_date_desc_same_date D). apply on_date_all.
  - intros a b e Ha Hb. unfold get_expenses.
    split.
    + intros Hin.
      apply (Permutation_in _ (sort_by_date_desc_perm _)) in Hin.
      apply List.filter_In in Hin. destruct Hin as [Hin Hk].
      rewrite kept_date_range in Hk by assumption.
      apply andb_true_iff in Hk. destruct Hk as [H1 H2].
      apply negb_true_iff in H1, H2.
      split; [exact Hin|].
      rewrite !leb_ltb, H1, H2. split; reflexivity.
    + intros (Hin & H1 & H2).
      apply (Permutation_in _ (Permutation_sym (sort_by_date_desc_perm _))).
      apply List.filter_In. split; [exact Hin|].
      rewrite kept_date_range by assumption.
      rewrite !leb_ltb in H1, H2. rewrite H1, H2. reflexivity.
  - intros f_city f_category start_date end_date kept_records result.
    subst result; unfold get_expenses; fold kept_records.
    split; [apply sort_by_date_desc_sorted|].
    split; [apply sort_by_date_desc_perm|].
    intros d. apply sort_by_date_desc_stable.
Qed.

End Listing.

(** ** Backup round trip and durable writes *)
Section Backup.
Import Database.

(** A new dict object never takes the place of the current one. *)
Lemma fresh_pointer_ne (s : Store) :
  is_Some (heap s !! self_data s) -> fresh (dom (heap s)) <> self_data s.
Proof.
  intros Hs Heq.
  apply (is_fresh (dom (heap s))).
  rewrite Heq. apply elem_of_dom. exact Hs.
Qed.

(** The dict object the store pointed to before [clear_all_data] is
    still in the heap afterwards, unchanged. *)
Lemma clear_all_data_keeps_old_object
    (s : Store) (t1 t2 t3 : string) (w : write_outcome) :
  is_Some (heap s !! self_data s) ->
  heap (snd (clear_all_data t1 t2 t3 w s)) !!! self_data s = data s.
Proof.
  intros Hs. pose proof (fresh_pointer_ne s Hs) as Hne.
  unfold clear_all_data, save_data, modify_data, bind_new_data, data.
  cbn [snd heap self_data].
  rewrite !lookup_total_insert_ne by exact Hne. reflexivity.
Qed.

Lemma data_clear_all_data (s : Store) (t1 t2 t3 : string) (w : write_outcome) :
  data (snd (clear_all_data t1 t2 t3 w s)) = mkData [] 1 t1 t3.
Proof.
  unfold clear_all_data. cbn [snd]. rewrite data_save_data.
  unfold data, bind_new_data. cbn [heap self_data].
  rewrite lookup_total_insert_eq. reflexivity.
Qed.

(** C8. [export_data], then [clear_all_data], then [import_data] of the
    exported snapshot gives back the expense records in the same order,
    the same [next_id] and the same creation stamp, on the very dict
    object the store pointed to before; in between the store is empty
    with the counter at 1.  Only [last_updated] differs: it carries the
    time of the import. *)
Theorem export_clear_import_restores
    (s : Store) (t_export t1 t2 t3 t_import : string)
    (w_clear w_import : write_outcome) :
  is_Some (heap s !! self_data s) ->
  let snapshot := export_data t_export s in
  let cleared := clear_all_data t1 t2 t3 w_clear s in
  let restored := import_data t_import w_import snapshot (snd cleared) in
  fst cleared = true
  /\ expenses (data (snd cleared)) = []
  /\ next_id (data (snd cleared)) = 1%Z
  /\ fst restored = true
  /\ self_data (snd restored) = self_data s
  /\ expenses (data (snd restored)) = expenses (data s)
  /\ next_id (data (snd restored)) = next_id (data s)
  /\ data_created_at (data (snd restored)) = data_created_at (data s)
  /\ last_updated (data (snd restored)) = t_import.
Proof.
  intros Hs snapshot cleared restored.
  assert (Hrestored :
    data (snd restored) = set_last_updated t_import (data s)).
  { subst restored snapshot. unfold import_data, export_data.
    cbn [backup_data snd]. rewrite data_save_data. f_equal.
    apply (clear_all_data_keeps_old_object s t1 t2 t3 w_clear Hs). }
  rewrite Hrestored. subst cleared. rewrite data_clear_all_data.
  repeat split; reflexivity.
Qed.

Lemma export_clear_import_restores_witness :
  let cleared := clear_all_data "t1" "t2" "t3" DumpFails Sample.ledger in
  let restored :=
    import_data "t4" WriteOk (export_data "t0" Sample.ledger) (snd cleared) in
  expenses (data (snd cleared)) = []
  /\ expenses (data (snd restored)) = expenses Sample.ledger_data
  /\ next_id (data (snd restored)) = 4%Z.
Proof.
  assert (Hs : is_Some (heap Sample.ledger !! self_data Sample.ledger))
    by (exists Sample.ledger_data; vm_compute; reflexivity).
  pose proof (export_clear_import_restores Sample.ledger "t0" "t1" "t2" "t3"
                "t4" DumpFails WriteOk Hs) as (_ & H1 & _ & _ & _ & H2 & H3 & _).
  intros cleared restored.
  exact (conj H1 (conj H2 H3)).
Defined.

End Backup.

Section ListingWitness.
Import Database.

Lemma get_expenses_single_date_and_order_witness :
  get_expenses None None (Some "2025-07-01") (Some "2025-07-01") Sample.ledger
  = [Sample.dinner; Sample.tea].
Proof.
  assert (HD : "2025-07-01" <> "") by discriminate.
  destruct (get_expenses_single_date_and_order Sample.ledger "2025-07-01" HD)
    as [H _].
  rewrite H. vm_compute. reflexivity.
Defined.

End ListingWitness.

(** ** Durable writes of [add_expense] *)
Section DurableWrite.
Import Database.

(** C2, as the code has it.  [add_expense] raises nothing and returns
    [True] whatever the outcome of the write.  The record is appended to
    the in-memory list and stays there; when the write fails the file
    keeps its previous content ([open] failed) or is left truncated
    ([json.dump] failed), so the memory is ahead of the durable state. *)
Theorem add_expense_keeps_record_when_write_fails
    (now : string) (w : write_outcome) (expense : Expense) (s : Store) :
  let r := add_expense now w expense s in
  fst r = true
  /\ expenses (data (snd r)) = (expenses (data s) ++ [expense])%list
  /\ next_id (data (snd r)) = next_id (data s)
  /\ db_file (snd r)
     = match w with
       | WriteOk => Saved (data (snd r))
       | OpenFails => db_file s
       | DumpFails => Truncated
       end.
Proof.
  intros r. subst r. unfold add_expense. cbn [fst snd].
  rewrite db_file_save_data, data_save_data, data_modify_data.
  destruct w; repeat split; reflexivity.
Qed.

(** C2, counterexample.  On the empty store, with a write that fails at
    [open], [add_expense] reports success, the record is in memory (the
    insert is not rolled back) and the file is what it was. *)
Lemma add_expense_failed_write_not_rolled_back :
  let r :=
    add_expense "2025-07-02T12:00:00" OpenFails Sample.metro
      Sample.empty_store in
  fst r = true
  /\ expenses (data (snd r)) = [Sample.metro]
  /\ expenses (data (snd r)) <> expenses (data Sample.empty_store)
  /\ db_file (snd r) = db_file Sample.empty_store.
Proof.
  vm_compute. repeat split. discriminate.
Qed.

End DurableWrite.

(** ** Documents *)
Section Documents.
Import Database.

(** The comprehension of [delete_document] drops every entry with the
    file name, not only the first, and keeps the others in order. *)
Lemma without_filename_spec (name : string) (docs : list Document) :
  Forall (fun doc => filename doc <> name) (without_filename name docs)
  /\ List.filter (fun doc => negb (String.eqb (filename doc) name))
       (without_filename name docs)
     = List.filter (fun doc => negb (String.eqb (filename doc) name)) docs.
Proof.
  unfold without_filename. split.
  - apply List.Forall_forall. intros doc Hin.
    apply List.filter_In in Hin. destruct Hin as [_ H].
    apply negb_true_iff, String.eqb_neq in H. exact H.
  - induction docs as [|doc docs IH]; [reflexivity|].
    simpl. destruct (String.eqb (filename doc) name) eqn:E; simpl.
    + exact IH.
    + rewrite E. simpl. f_equal. exact IH.
Qed.

(** [delete_document] returns [True] exactly when some expense with the
    id has a ['documents'] key, whether or not a file name matched. *)
Lemma delete_document_true_iff
    (now : string) (w : write_outcome) (expense_id : Z) (name : string)
    (s : Store) :
  fst (delete_document now w expense_id name s) = true
  <-> Exists (fun e => id e = expense_id /\ documents e <> None)
        (expenses (data s)).
Proof.
  unfold delete_document.
  assert (H : forall l,
    is_Some (delete_document_loop expense_id name l)
    <-> Exists (fun e => id e = expense_id /\ documents e <> None) l).
  { induction l as [|e l IH]; simpl.
    - split; [intros [? ?]; discriminate | intros H; inversion H].
    - destruct (Z.eqb_spec (id e) expense_id) as [Hid|Hid].
      + destruct (documents e) as [docs|] eqn:Hd.
        * split; [intros _|intros _; eexists; reflexivity].
          apply Exists_cons_hd. split; [exact Hid|congruence].
        * rewrite fmap_is_Some, IH. split; [apply Exists_cons_tl|].
          intros H; inversion H as [? ? [_ Hc]|]; subst; [congruence|assumption].
      + rewrite fmap_is_Some, IH. split; [apply Exists_cons_tl|].
        intros H; inversion H as [? ? [Hc _]|]; subst; [congruence|assumption]. }
  rewrite <- H.
  destruct (delete_document_loop expense_id name (expenses (data s))); simpl.
  - split; [intros _; eexists; reflexivity | reflexivity].
  - split; [discriminate | intros [? ?]; discriminate].
Qed.

(** C9, at the failing input.  Expense 1 of the sample ledger holds the
    single document [receipt.pdf].  Asked to delete [ticket.pdf] from it,
    [delete_document] returns [True] although no document matched, and
    the document list is what it was. *)
Theorem delete_document_true_without_match :
  let r :=
    delete_document "2025-07-02T12:00:00" WriteOk 1 "ticket.pdf"
      Sample.ledger in
  fst r = true
  /\ (documents <$> get_expense_by_id 1 (snd r)) = Some (Some [Sample.receipt])
  /\ expenses (data (snd r)) = expenses (data Sample.ledger).
Proof.
  vm_compute. repeat split.
Qed.

End Documents.

(** ** The rate cache *)
Section RateCacheFacts.
Import Currency.
Context {V : Type}.
Variable of_float : Q -> V.
Variable formats_4f : V -> bool.
Variable older_than_4h : string -> option bool.

(** A block of [fetch_live_rates] whose source fails leaves the
    converter as it is. *)
Lemma attempt_source_fails
    (now : string) (w : write_outcome) (r : response V) (c : Converter V) :
  source_fails r -> attempt of_float formats_4f now w r c = (false, c).
Proof.
  destruct r as [|code body]; simpl; [reflexivity|].
  intros [Hcode|Hbody].
  - destruct (Z.eqb_spec code 200); [contradiction|reflexivity].
  - subst body. destruct (Z.eqb code 200); reflexivity.
Qed.

Lemma fetch_live_rates_sources_fail (net : Remote V) (c : Converter V) :
  source_fails (primary net) -> source_fails (backup net) ->
  fetch_live_rates of_float formats_4f net c = (false, c).
Proof.
  intros H1 H2. unfold fetch_live_rates.
  rewrite (attempt_source_fails _ _ _ _ H1).
  apply attempt_source_fails; exact H2.
Qed.

(** When both remote sources are out of service, [get_rates] returns
    the mapping the converter held before, whether a refresh was due or
    not, and the converter (mapping, stamp and file) is left as it was;
    the refresh itself reports [False] when it was attempted. *)
Theorem get_rates_keeps_snapshot_when_sources_fail
    (net : Remote V) (c : Converter V) :
  source_fails (primary net) -> source_fails (backup net) ->
  get_rates of_float formats_4f older_than_4h net c = (rates c, c)
  /\ fst (update_rates of_float formats_4f older_than_4h net c)
     = negb (should_update_rates older_than_4h c).
Proof.
  intros H1 H2. unfold get_rates, update_rates.
  destruct (should_update_rates older_than_4h c).
  - rewrite (fetch_live_rates_sources_fail net c H1 H2). split; reflexivity.
  - split; reflexivity.
Qed.

(** A block that gets a 200 answer whose pound or dirham rate cannot be
    formatted fails too, by way of its [except] clause, but only after
    the mapping, the stamp and the file were replaced. *)
Lemma attempt_unformattable_rate
    (now : string) (w : write_outcome) (code : Z)
    (rates_data : gmap string V) (c : Converter V) :
  code = 200%Z ->
  formats_4f (pick of_float rates_data (rates c) "GBP" 0.11%Q)
  && formats_4f (pick of_float rates_data (rates c) "AED" 0.52%Q) = false ->
  attempt of_float formats_4f now w (Http code (Some rates_data)) c
  = (false,
     save_rates w
       (mkConverter (extract_rates of_float rates_data (rates c)) (Some now)
          (rates_file c))).
Proof.
  intros -> Hfmt. unfold attempt, formats_rate, save_rates, extract_rates.
  cbn [Z.eqb Pos.eqb rates].
  rewrite lookup_insert_eq.
  rewrite (lookup_insert_ne _ "GBP" "AED") by discriminate.
  rewrite lookup_insert_eq, Hfmt. reflexivity.
Qed.

End RateCacheFacts.

Section RateCacheExamples.
Import Currency.

Lemma get_rates_keeps_snapshot_when_sources_fail_witness :
  Commands.get_rates (Sample.env true WriteOk) (Sample.bot Sample.default_rates)
  = (Sample.default_rates, Sample.bot Sample.default_rates).
Proof.
  unfold Commands.get_rates.
  destruct (get_rates_keeps_snapshot_when_sources_fail
              (fun q : Q => q) (fun _ : Q => true) (fun _ => Some true)
              Sample.offline (Sample.converter Sample.default_rates) I I)
    as [H _].
  cbn [Commands.older_than_4h Commands.net Sample.env Commands.currency
       Sample.bot].
  rewrite H. reflexivity.
Defined.

(** A source that answers 200 is not a failed source for the cache, even
    when a rate in the answer is [null].  The mapping is then replaced and
    saved before the log line that formats the rates raises; the block is
    left through its [except] clause, the backup is tried, and when that
    one is out of reach [fetch_live_rates] returns [False] with the new
    mapping in place. *)
Example fetch_live_rates_null_rate :
  let r :=
    fetch_live_rates (fun q => Some q) Sample.json_formats
      Sample.null_gbp_remote Sample.json_converter in
  fst r = false
  /\ rates (snd r) !! "GBP" = Some None
  /\ rates Sample.json_converter !! "GBP" = Some (Some 0.11%Q)
  /\ last_updated (snd r) = Some "2025-07-02T12:00:00".
Proof.
  vm_compute. repeat split.
Qed.

(** C5, at the failing input.  The held mapping has the four default
    rates and no stamp, so a refresh is due.  The first endpoint answers
    200 with a [null] pound rate, the second one is out of reach.  Both
    blocks of [fetch_live_rates] fail and the refresh reports [False],
    yet [get_rates] does not return the previous mapping: the pound rate
    it returns is [null], and stamp and file carry the replaced mapping. *)
Theorem get_rates_failed_refresh_replaces_snapshot :
  let attempted :=
    update_rates (fun q => Some q) Sample.json_formats (fun _ => Some true)
      Sample.null_gbp_remote Sample.json_converter in
  let r :=
    get_rates (fun q => Some q) Sample.json_formats (fun _ => Some true)
      Sample.null_gbp_remote Sample.json_converter in
  fst attempted = false
  /\ rates Sample.json_converter !! "GBP" = Some (Some 0.11%Q)
  /\ fst r !! "GBP" = Some None
  /\ fst r <> rates Sample.json_converter
  /\ rates (snd r) = fst r
  /\ last_updated Sample.json_converter = None
  /\ last_updated (snd r) = Some "2025-07-02T12:00:00"
  /\ rates_file (snd r)
     = Saved (mkRatesFile (fst r) (Some "2025-07-02T12:00:00") "CNY").
Proof.
  intros attempted r.
  assert (Hnew : fst r !! "GBP" = Some None) by (vm_compute; reflexivity).
  assert (Hold : rates Sample.json_converter !! "GBP" = Some (Some 0.11%Q))
    by (vm_compute; reflexivity).
  split; [vm_compute; reflexivity|].
  split; [exact Hold|]. split; [exact Hnew|].
  split.
  { intros H.
    pose proof (eq_trans (eq_sym Hnew)
                  (eq_trans
                     (f_equal (fun m : gmap string (option Q) => m !! "GBP") H)
                     Hold)) as Habsurd.
    discriminate Habsurd. }
  repeat split; vm_compute; reflexivity.
Qed.

End RateCacheExamples.

(** ** Conversion and split in the add and edit commands *)
Section Conversion.
Import Database Commands.

Local Open Scope Q_scope.

(** The guarded inverse of [add_expense] never raises: for a zero rate
    it is the fallback constant, otherwise the inverse of the rate. *)
Lemma inverse_or_value (r fallback : Q) :
  inverse_or r fallback = inr (if Qeq_bool r 0 then fallback else 1 / r).
Proof.
  unfold inverse_or, py_div. destruct (Qeq_bool r 0); reflexivity.
Qed.

(** The amount in RMB that [add_expense] computes, as a total function. *)
Lemma add_amount_rmb_total (rates : gmap string Q) (amount : Q) (cur : string) :
  exists amount_rmb : Q, add_amount_rmb rates amount cur = inr amount_rmb.
Proof.
  unfold add_amount_rmb.
  repeat match goal with
         | |- context [String.eqb cur ?c] => destruct (String.eqb cur c)
         end;
    rewrite ?inverse_or_value; simpl; eexists; reflexivity.
Qed.

(** For a held rate of zero the add path multiplies by the fallback
    constant of the currency. *)
Lemma add_amount_rmb_zero_rate (rates : gmap string Q) (amount : Q) :
  (rate rates "GBP" 0.11 == 0 ->
     add_amount_rmb rates amount "GBP" = inr (amount * 9.09))
  /\ (rate rates "AED" 0.52 == 0 ->
     add_amount_rmb rates amount "AED" = inr (amount * 1.92))
  /\ (rate rates "USD" 0.14 == 0 ->
     add_amount_rmb rates amount "USD" = inr (amount * 7.14))
  /\ (rate rates "EUR" 0.13 == 0 ->
     add_amount_rmb rates amount "EUR" = inr (amount * 7.69)).
Proof.
  repeat split; intros H; apply Qeq_bool_iff in H;
    unfold add_amount_rmb; simpl; rewrite inverse_or_value, H; reflexivity.
Qed.


(** For a held rate of zero the edit path divides by it and raises. *)
Lemma edit_amount_rmb_zero_rate (rates : gmap string Q) (amount : Q) :
  (rate rates "GBP" 0.11 == 0 ->
     edit_amount_rmb rates amount "GBP" = inl ZeroDivisionError)
  /\ (rate rates "AED" 0.52 == 0 ->
     edit_amount_rmb rates amount "AED" = inl ZeroDivisionError)
  /\ (rate rates "USD" 0.14 == 0 ->
     edit_amount_rmb rates amount "USD" = inl ZeroDivisionError)
  /\ (rate rates "EUR" 0.13 == 0 ->
     edit_amount_rmb rates amount "EUR" = inl ZeroDivisionError).
Proof.
  repeat split; intros H; apply Qeq_bool_iff in H;
    unfold edit_amount_rmb, py_div; simpl; rewrite H; reflexivity.
Qed.

(** The two RMB shares of the add path add up to the amount. *)
Lemma add_shares_sum (rates : gmap string Q) (amount_rmb : Q) (payer : string) :
  s_sunil_rmb (add_shares rates amount_rmb payer)
  + s_shirin_rmb (add_shares rates amount_rmb payer) == amount_rmb.
Proof.
  unfold add_shares.
  destruct (String.eqb payer "Couple"); [|destruct (String.eqb payer "Sunil")];
    simpl; field.
Qed.

(** The same for the edit path. *)
Lemma edit_shares_sum (rates : gmap string Q) (amount_rmb : Q) (payer : string) :
  s_sunil_rmb (edit_shares rates amount_rmb payer)
  + s_shirin_rmb (edit_shares rates amount_rmb payer) == amount_rmb.
Proof.
  unfold edit_shares.
  destruct (String.eqb payer "Couple"); [|destruct (String.eqb payer "Sunil")];
    simpl; field.
Qed.

(** A positive amount passes the check [amount <= 0]. *)
Lemma Qle_bool_false_of_pos (a : Q) : 0 < a -> Qle_bool a 0 = false.
Proof.
  intros Ha. destruct (Qle_bool a 0) eqn:E; [|reflexivity].
  apply Qle_bool_iff in E. exfalso. apply (Qlt_not_le _ _ Ha E).
Qed.

(** [get_rates] of the cog does not touch the store. *)
Lemma get_rates_db (env : Env) (b : Bot) : db (snd (get_rates env b)) = db b.
Proof.
  unfold get_rates.
  destruct (Currency.get_rates _ _ _ _ _). reflexivity.
Qed.

(** What [add_expense] does on inputs that pass its checks: it answers
    with the new record, whose fields are the inputs, the converted
    amount and the shares, and the record is appended to the store. *)
Lemma add_expense_valid
    (env : Env) (city activity : string) (amount : Q)
    (cur category payer : string) (date notes : option string) (b : Bot) :
  str_in city CITIES = true ->
  str_in category CATEGORIES = true ->
  str_in payer PAYERS = true ->
  str_in cur CURRENCIES = true ->
  (truthy date = true -> validate_date env (default ""%string date) = true) ->
  0 < amount ->
  let rates := fst (get_rates env b) in
  exists (e : Expense) (b' : Bot) (amount_rmb : Q),
    add_expense env city activity amount cur category payer date notes b
    = (ExpenseAdded e, b')
    /\ add_amount_rmb rates amount cur = inr amount_rmb
    /\ original_amount e = amount
    /\ original_currency e = cur
    /\ Database.payer e = payer
    /\ total_rmb e = amount_rmb
    /\ sunil_rmb e = s_sunil_rmb (add_shares rates amount_rmb payer)
    /\ shirin_rmb e = s_shirin_rmb (add_shares rates amount_rmb payer)
    /\ sunil_gbp e = s_sunil_gbp (add_shares rates amount_rmb payer)
    /\ shirin_aed e = s_shirin_aed (add_shares rates amount_rmb payer)
    /\ id e = next_id (data (db b))
    /\ expenses (data (db b')) = (expenses (data (db b)) ++ [e])%list
    /\ next_id (data (db b')) = (next_id (data (db b)) + 1)%Z.
Proof.
  intros Hcity Hcat Hpayer Hcur Hdate Hamount rates.
  unfold add_expense.
  rewrite Hcity, Hcat, Hpayer, Hcur. cbn [negb].
  assert (Hd : truthy date && negb (validate_date env (default ""%string date))
               = false).
  { destruct (truthy date); [rewrite (Hdate eq_refl)|]; reflexivity. }
  rewrite Hd.
  rewrite (Qle_bool_false_of_pos amount Hamount).
  pose proof (get_rates_db env b) as Hdb.
  subst rates. destruct (get_rates env b) as [rates b1]. cbn [fst snd] in *.
  destruct (add_amount_rmb_total rates amount cur) as [amount_rmb Ha].
  rewrite Ha. unfold get_next_id, Database.add_expense. rewrite Hdb.
  do 3 eexists. split; [reflexivity|]. cbn [db].
  rewrite !data_save_data, !data_modify_data.
  repeat split; reflexivity.
Qed.

End Conversion.

Section AddCommand.
Import Database Commands.

Local Open Scope Q_scope.

(** C1. On inputs that pass the checks of [add_expense] (city, category,
    currency, date, and a positive amount) and for each of the three
    payers, the command creates a record, stores it, and the two RMB
    shares of the record add up to its RMB total.  Amounts are exact
    rationals here, so the sum is exact; in binary64 it holds up to
    rounding. *)
Theorem add_expense_shares_sum_to_total
    (env : Env) (city activity : string) (amount : Q)
    (cur category payer : string) (date notes : option string) (b : Bot) :
  str_in city CITIES = true ->
  str_in category CATEGORIES = true ->
  str_in payer PAYERS = true ->
  str_in cur CURRENCIES = true ->
  (truthy date = true -> validate_date env (default ""%string date) = true) ->
  0 < amount ->
  exists (e : Expense) (b' : Bot),
    add_expense env city activity amount cur category payer date notes b
    = (ExpenseAdded e, b')
    /\ Database.payer e = payer
    /\ In e (expenses (data (db b')))
    /\ sunil_rmb e + shirin_rmb e == total_rmb e.
Proof.
  intros Hcity Hcat Hpayer Hcur Hdate Hamount.
  destruct (add_expense_valid env city activity amount cur category payer
              date notes b Hcity Hcat Hpayer Hcur Hdate Hamount)
    as (e & b' & amount_rmb & Hrun & _ & _ & _ & Hp & Ht & Hsu & Hsh & _ & _
        & _ & Hl & _).
  exists e, b'. split; [exact Hrun|]. split; [exact Hp|]. split.
  - rewrite Hl. apply in_or_app. right. left. reflexivity.
  - rewrite Hsu, Hsh, Ht. apply add_shares_sum.
Qed.

Lemma add_expense_shares_sum_to_total_witness :
  exists (e : Expense) (b' : Bot),
    add_expense (Sample.env false WriteOk) "Beijing" "Roast duck" 100 "GBP"
      "Food" "Couple" None None (Sample.bot Sample.default_rates)
    = (ExpenseAdded e, b')
    /\ Database.payer e = "Couple"%string
    /\ In e (expenses (data (db b')))
    /\ sunil_rmb e + shirin_rmb e == total_rmb e.
Proof.
  apply add_expense_shares_sum_to_total; vm_compute; reflexivity.
Defined.



(** C4, at the failing input.  The held pound rate is zero.  Editing
    expense 1 to 10 GBP makes [edit_expense] divide by that rate: the
    command ends in its exception handler with [ZeroDivisionError] and
    nothing is changed.  Adding 10 GBP with the same rates succeeds, the
    add path using its fallback constant 9.09. *)
Theorem edit_expense_divides_by_zero_rate :
  edit_expense (Sample.env false WriteOk) 1 (Some 10) (Some "GBP"%string)
    None None None None None None (Sample.bot Sample.zero_gbp)
  = (ErrorReply ZeroDivisionError, Sample.bot Sample.zero_gbp)
  /\ exists (e : Expense) (b' : Bot),
       add_expense (Sample.env false WriteOk) "London" "Tube" 10 "GBP"
         "Transportation" "Sunil" None None (Sample.bot Sample.zero_gbp)
       = (ExpenseAdded e, b')
       /\ total_rmb e == 10 * 9.09.
Proof.
  split.
  - vm_compute. reflexivity.
  - do 2 eexists. split.
    + vm_compute. reflexivity.
    + vm_compute. reflexivity.
Qed.

End AddCommand.

(** ** The edit command *)
Section EditCommand.
Import Database Commands.

Local Open Scope Q_scope.

Lemma id_set_field (u : field_update) (e : Expense) : id (set_field u e) = id e.
Proof. destruct u; reflexivity. Qed.

Lemma id_apply_updates (updates : list field_update) (e : Expense) :
  id (apply_updates updates e) = id e.
Proof.
  unfold apply_updates. revert e.
  induction updates as [|u updates IH]; intros e; simpl; [reflexivity|].
  rewrite IH. apply id_set_field.
Qed.

(** The loop of [update_expense] hits the record that
    [get_expense_by_id] finds, and afterwards the lookup finds the
    updated record. *)
Lemma update_first_found
    (expense_id : Z) (updates : list field_update) (l : list Expense)
    (e : Expense) :
  List.find (fun x => Z.eqb (id x) expense_id) l = Some e ->
  exists l' : list Expense,
    update_first expense_id updates l = Some l'
    /\ List.find (fun x => Z.eqb (id x) expense_id) l'
       = Some (apply_updates updates e).
Proof.
  induction l as [|x l IH]; simpl; [discriminate|].
  destruct (Z.eqb (id x) expense_id) eqn:E.
  - intros [= ->]. eexists. split; [reflexivity|].
    simpl. rewrite id_apply_updates, E. reflexivity.
  - intros H. destruct (IH H) as (l' & Hu & Hf).
    exists (x :: l'). rewrite Hu. split; [reflexivity|].
    simpl. rewrite E. exact Hf.
Qed.

Lemma commit_updates_found
    (env : Env) (expense_id : Z) (updates : list field_update) (b : Bot)
    (e : Expense) :
  updates <> [] ->
  get_expense_by_id expense_id (db b) = Some e ->
  exists b' : Bot,
    commit_updates env expense_id updates b
    = (ExpenseUpdated (apply_updates updates e), b')
    /\ get_expense_by_id expense_id (db b') = Some (apply_updates updates e)
    /\ currency b' = currency b.
Proof.
  intros Hne Hfind. unfold commit_updates.
  destruct updates as [|u updates]; [contradiction|].
  unfold update_expense, get_expense_by_id in *.
  destruct (update_first_found expense_id (u :: updates) _ e Hfind)
    as (l' & Hu & Hf).
  rewrite Hu. rewrite data_save_data, data_modify_data. cbn [expenses set_last_updated set_expenses].
  rewrite Hf. eexists. split; [reflexivity|]. cbn [db currency].
  rewrite data_save_data, data_modify_data. cbn [expenses set_last_updated set_expenses].
  split; [exact Hf|reflexivity].
Qed.

(** The record after the plain entries and the amount entries of
    [updates] have been written, field by field. *)
Lemma apply_edit_updates
    (activity category city payer date notes : option string)
    (a : Q) (update_currency : string) (amount_rmb : Q) (sh : Shares)
    (e : Expense) :
  let e' :=
    apply_updates
      (plain_updates activity category city payer date notes
       ++ amount_updates a update_currency amount_rmb sh)%list e in
  Database.activity e' = default (Database.activity e) activity
  /\ Database.category e' = default (Database.category e) category
  /\ Database.city e' = default (Database.city e) city
  /\ Database.payer e' = default (Database.payer e) payer
  /\ Database.date e' = default (Database.date e) date
  /\ Database.notes e' = default (Database.notes e) notes
  /\ documents e' = documents e
  /\ created_at e' = created_at e
  /\ original_amount e' = a
  /\ original_currency e' = update_currency
  /\ total_rmb e' = amount_rmb
  /\ sunil_rmb e' = s_sunil_rmb sh
  /\ shirin_rmb e' = s_shirin_rmb sh
  /\ sunil_gbp e' = s_sunil_gbp sh
  /\ shirin_aed e' = s_shirin_aed sh.
Proof.
  destruct activity, category, city, payer, date, notes;
    cbv -[Qdiv Qmult Qplus]; repeat split; reflexivity.
Qed.

(** What [edit_expense] does when an amount is given, the inputs pass
    its checks and the conversion does not raise. *)
Lemma edit_expense_valid
    (env : Env) (expense_id : Z) (a : Q)
    (cur activity category city payer date notes : option string)
    (b : Bot) (expense : Expense) (amount_rmb : Q) :
  get_expense_by_id expense_id (db b) = Some expense ->
  given_and_not_in cur CURRENCIES = false ->
  given_and_not_in category CATEGORIES = false ->
  given_and_not_in city CITIES = false ->
  given_and_not_in payer PAYERS = false ->
  (truthy date = true -> validate_date env (default ""%string date) = true) ->
  0 < a ->
  let rates := fst (get_rates env b) in
  let update_currency := str_or cur (original_currency expense) in
  edit_amount_rmb rates a update_currency = inr amount_rmb ->
  exists (e' : Expense) (b' : Bot),
    edit_expense env expense_id (Some a) cur activity category city payer
     date notes b
    = (ExpenseUpdated e', b')
    /\ get_expense_by_id expense_id (db b') = Some e'
    /\ id e' = id expense
    /\ Database.activity e' = default (Database.activity expense) activity
    /\ Database.category e' = default (Database.category expense) category
    /\ Database.city e' = default (Database.city expense) city
    /\ Database.payer e' = default (Database.payer expense) payer
    /\ Database.date e' = default (Database.date expense) date
    /\ Database.notes e' = default (Database.notes expense) notes
    /\ documents e' = documents expense
    /\ created_at e' = created_at expense
    /\ original_amount e' = a
    /\ original_currency e' = update_currency
    /\ total_rmb e' = amount_rmb
    /\ sunil_rmb e' = s_sunil_rmb (edit_shares rates amount_rmb (Database.payer e'))
    /\ shirin_rmb e' = s_shirin_rmb (edit_shares rates amount_rmb (Database.payer e'))
    /\ sunil_gbp e' = s_sunil_gbp (edit_shares rates amount_rmb (Database.payer e'))
    /\ shirin_aed e' = s_shirin_aed (edit_shares rates amount_rmb (Database.payer e'))
    /\ shares_recomputed rates e'.
Proof.
  intros Hfind Hcur Hcat Hcity Hpayer Hdate Ha rates update_currency Hconv.
  unfold edit_expense. rewrite Hfind, Hcur, Hcat, Hcity, Hpayer.
  assert (Hd : truthy date && negb (validate_date env (default ""%string date))
               = false).
  { destruct (truthy date); [rewrite (Hdate eq_refl)|]; reflexivity. }
  rewrite Hd.
  rewrite (Qle_bool_false_of_pos a Ha).
  pose proof (get_rates_db env b) as Hdb.
  subst rates update_currency.
  destruct (get_rates env b) as [rates b1]. cbn [fst snd] in *.
  rewrite Hconv.
  set (sh := edit_shares rates amount_rmb
               (default (Database.payer expense) payer)).
  set (updates :=
         (plain_updates activity category city payer date notes
          ++ amount_updates a (str_or cur (original_currency expense))
               amount_rmb sh)%list).
  assert (Hne : updates <> []).
  { subst updates. intros H. apply app_eq_nil in H.
    destruct H as [_ H]. discriminate H. }
  rewrite <- Hdb in Hfind.
  destruct (commit_updates_found env expense_id updates b1 expense Hne Hfind)
    as (b' & Hrun & Hget & _).
  exists (apply_updates updates expense), b'.
  split; [exact Hrun|]. split; [exact Hget|].
  split; [apply id_apply_updates|].
  pose proof (apply_edit_updates activity category city payer date notes a
                (str_or cur (original_currency expense)) amount_rmb sh expense)
    as H.
  cbv zeta in H. fold updates in H.
  destruct H as (H1 & H2 & H3 & H4 & H5 & H6 & H7 & H8 & H9 & H10 & H11
                 & H12 & H13 & H14 & H15).
  unfold shares_recomputed. cbv zeta.
  rewrite H4, H11, H12, H13, H14, H15.
  repeat split; try assumption; reflexivity.
Qed.

(** The two RMB shares that an edit with an amount writes add up to the
    RMB total it writes. *)
Lemma edit_expense_shares_sum_to_total
    (env : Env) (expense_id : Z) (a : Q)
    (cur activity category city payer date notes : option string)
    (b : Bot) (expense : Expense) (amount_rmb : Q) :
  get_expense_by_id expense_id (db b) = Some expense ->
  given_and_not_in cur CURRENCIES = false ->
  given_and_not_in category CATEGORIES = false ->
  given_and_not_in city CITIES = false ->
  given_and_not_in payer PAYERS = false ->
  (truthy date = true -> validate_date env (default ""%string date) = true) ->
  0 < a ->
  edit_amount_rmb (fst (get_rates env b)) a
    (str_or cur (original_currency expense)) = inr amount_rmb ->
  exists (e' : Expense) (b' : Bot),
    edit_expense env expense_id (Some a) cur activity category city payer
      date notes b
    = (ExpenseUpdated e', b')
    /\ sunil_rmb e' + shirin_rmb e' == total_rmb e'.
Proof.
  intros Hfind Hcur Hcat Hcity Hpayer Hdate Ha Hconv.
  destruct (edit_expense_valid env expense_id a cur activity category city
              payer date notes b expense amount_rmb Hfind Hcur Hcat Hcity
              Hpayer Hdate Ha Hconv)
    as (e' & b' & Hrun & _ & _ & _ & _ & _ & _ & _ & _ & _ & _ & _ & _
        & Ht & Hsu & Hsh & _).
  exists e', b'. split; [exact Hrun|].
  rewrite Ht, Hsu, Hsh. apply edit_shares_sum.
Qed.






End EditCommand.

(** * Further properties of the modelled code *)

(** ** The order of strings *)
Section StringOrder.

Lemma ascii_compare_lt_trans (a b c : Ascii.ascii) :
  Ascii.compare a b = Lt -> Ascii.compare b c = Lt -> Ascii.compare a c = Lt.
Proof. unfold Ascii.compare. rewrite !N.compare_lt_iff. lia. Qed.

Lemma string_compare_lt_trans (s1 s2 s3 : string) :
  String.compare s1 s2 = Lt -> String.compare s2 s3 = Lt ->
  String.compare s1 s3 = Lt.
Proof.
  revert s2 s3.
  induction s1 as [|a s1 IH]; intros [|b s2] [|c s3]; simpl; try congruence.
  destruct (Ascii.compare a b) eqn:Eab; try discriminate;
    destruct (Ascii.compare b c) eqn:Ebc; try discriminate; intros H1 H2.
  - apply Ascii.compare_eq_iff in Eab, Ebc. subst.
    assert (Ascii.compare c c = Eq) as ->
      by (unfold Ascii.compare; apply N.compare_refl).
    eauto.
  - apply Ascii.compare_eq_iff in Eab. subst. rewrite Ebc. reflexivity.
  - apply Ascii.compare_eq_iff in Ebc. subst. rewrite Eab. reflexivity.
  - rewrite (ascii_compare_lt_trans _ _ _ Eab Ebc). reflexivity.
Qed.

Lemma ltb_trans (a b c : string) :
  String.ltb a b = true -> String.ltb b c = true -> String.ltb a c = true.
Proof.
  unfold String.ltb.
  destruct (String.compare a b) eqn:E1; try discriminate.
  destruct (String.compare b c) eqn:E2; try discriminate.
  rewrite (string_compare_lt_trans _ _ _ E1 E2). reflexivity.
Qed.

(** "Not smaller than" is transitive. *)
Lemma ltb_false_trans (a b c : string) :
  String.ltb a b = false -> String.ltb b c = false -> String.ltb a c = false.
Proof.
  intros Hab Hbc.
  destruct (String.ltb a c) eqn:Hac; [|reflexivity].
  destruct (String.ltb c b) eqn:Hcb.
  - rewrite (ltb_trans a c b Hac Hcb) in Hab. discriminate.
  - pose proof (ltb_both_false b c Hbc Hcb) as ->. congruence.
Qed.

End StringOrder.

(** ** The stable descending sort *)
Section SortDesc.

Context {A : Type}.
Variable lt : A -> A -> bool.

Lemma insert_desc_perm (x : A) (l : list A) :
  Permutation (insert_desc lt x l) (x :: l).
Proof.
  induction l as [|y l IH]; simpl; [apply Permutation_refl|].
  destruct (lt x y).
  - eapply Permutation_trans; [apply perm_skip; exact IH|apply perm_swap].
  - apply Permutation_refl.
Qed.

Lemma sort_desc_perm (l : list A) : Permutation (sort_desc lt l) l.
Proof.
  induction l as [|x l IH]; simpl; [constructor|].
  eapply Permutation_trans; [apply insert_desc_perm|].
  apply perm_skip; exact IH.
Qed.

Lemma sort_desc_length (l : list A) : length (sort_desc lt l) = length l.
Proof. apply Permutation_length, sort_desc_perm. Qed.

(** An element that is not smaller than any element of the list goes
    to the front. *)
Lemma insert_desc_front (x : A) (l : list A) :
  List.Forall (fun z => lt x z = false) l -> insert_desc lt x l = x :: l.
Proof.
  intros H. destruct l as [|y l]; [reflexivity|].
  simpl. inversion H as [|? ? Hy _]; subst. simpl in Hy.
  rewrite Hy. reflexivity.
Qed.

Hypothesis lt_asym : forall a b, lt a b = true -> lt b a = false.
Hypothesis ge_trans :
  forall a b c, lt a b = false -> lt b c = false -> lt a c = false.

Lemma insert_desc_sorted (x : A) (l : list A) :
  StronglySorted (fun a b => lt a b = false) l -> StronglySorted (fun a b => lt a b = false) (insert_desc lt x l).
Proof.
  induction l as [|y l IH]; intros Hs; simpl.
  - repeat constructor.
  - inversion Hs as [|? ? Hs' Hall]; subst.
    destruct (lt x y) eqn:E.
    + constructor; [apply IH; exact Hs'|].
      apply (Permutation_Forall (Permutation_sym (insert_desc_perm x l))).
      constructor; [apply lt_asym; exact E|exact Hall].
    + constructor; [exact Hs|].
      constructor; [exact E|].
      eapply List.Forall_impl; [|exact Hall].
      intros z Hz. exact (ge_trans x y z E Hz).
Qed.

Lemma sort_desc_sorted (l : list A) : StronglySorted (fun a b => lt a b = false) (sort_desc lt l).
Proof.
  induction l as [|x l IH]; simpl; [constructor|].
  apply insert_desc_sorted; exact IH.
Qed.

(** Filtering a sorted list and inserting commute. *)
Lemma filter_insert_desc (p : A -> bool) (x : A) (l : list A) :
  StronglySorted (fun a b => lt a b = false) l ->
  List.filter p (insert_desc lt x l)
  = if p x then insert_desc lt x (List.filter p l) else List.filter p l.
Proof.
  induction l as [|y l IH]; intros Hs; simpl.
  - destruct (p x); reflexivity.
  - inversion Hs as [|? ? Hs' Hall]; subst.
    destruct (lt x y) eqn:E; simpl.
    + rewrite (IH Hs'). destruct (p y), (p x); simpl; rewrite ?E; reflexivity.
    + destruct (p x) eqn:Hx, (p y) eqn:Hy; simpl; rewrite ?E; try reflexivity.
      symmetry. apply insert_desc_front.
      apply List.Forall_forall. intros z Hz.
      apply List.filter_In in Hz. destruct Hz as [Hz _].
      apply (ge_trans x y z E).
      exact (proj1 (List.Forall_forall _ _) Hall z Hz).
Qed.

(** Filtering after sorting is sorting after filtering. *)
Lemma filter_sort_desc (p : A -> bool) (l : list A) :
  List.filter p (sort_desc lt l) = sort_desc lt (List.filter p l).
Proof.
  induction l as [|x l IH]; [reflexivity|].
  simpl. rewrite filter_insert_desc by apply sort_desc_sorted.
  rewrite IH. destruct (p x); reflexivity.
Qed.

End SortDesc.

Section ListingOrder.
Import Database Commands.

Lemma sort_by_date_desc_generic (l : list Expense) :
  sort_by_date_desc l
  = sort_desc (fun a b => String.ltb (date a) (date b)) l.
Proof.
  induction l as [|x l IH]; [reflexivity|].
  simpl. rewrite IH. generalize (sort_desc (fun a b => String.ltb (date a) (date b)) l).
  intros l'. induction l' as [|y l' IH']; [reflexivity|].
  simpl. rewrite IH'. reflexivity.
Qed.

(** X1. Every record of a listing is not older than every record that
    comes after it, not only than its neighbour. *)
Theorem get_expenses_strongly_sorted
    (f_city f_category start_date end_date : option string) (s : Store) :
  StronglySorted not_older
    (get_expenses f_city f_category start_date end_date s)
  /\ length (get_expenses f_city f_category start_date end_date s)
     = length (List.filter (kept f_city f_category start_date end_date)
                 (expenses (data s))).
Proof.
  unfold get_expenses. rewrite sort_by_date_desc_generic. split.
  - apply (sort_desc_sorted (fun a b => String.ltb (date a) (date b))).
    + intros a b. apply ltb_asym.
    + intros a b c. apply ltb_false_trans.
  - apply sort_desc_length.
Qed.

End ListingOrder.

(** ** Lookup, update and deletion by id *)
Section ById.
Import Database.

Lemma expenses_save_modify (now : string) (w : write_outcome)
    (l : list Expense) (s : Store) :
  expenses (data (save_data now w (modify_data (set_expenses l) s))) = l.
Proof. rewrite data_save_data, data_modify_data. reflexivity. Qed.

Lemma next_id_save_modify (now : string) (w : write_outcome)
    (l : list Expense) (s : Store) :
  next_id (data (save_data now w (modify_data (set_expenses l) s)))
  = next_id (data s).
Proof. rewrite data_save_data, data_modify_data. reflexivity. Qed.

Lemma find_without_id (expense_id : Z) (l : list Expense) :
  List.find (fun e => Z.eqb (id e) expense_id)
    (List.filter (fun e => negb (Z.eqb (id e) expense_id)) l) = None.
Proof.
  induction l as [|e l IH]; [reflexivity|].
  simpl. destruct (Z.eqb (id e) expense_id) eqn:E; simpl; [exact IH|].
  rewrite E. exact IH.
Qed.

Lemma find_other_id_without (expense_id j : Z) (l : list Expense) :
  j <> expense_id ->
  List.find (fun e => Z.eqb (id e) j)
    (List.filter (fun e => negb (Z.eqb (id e) expense_id)) l)
  = List.find (fun e => Z.eqb (id e) j) l.
Proof.
  intros Hj. induction l as [|e l IH]; [reflexivity|].
  simpl. destruct (Z.eqb_spec (id e) expense_id) as [He|He]; simpl.
  - destruct (Z.eqb_spec (id e) j) as [Hej|_]; [congruence|exact IH].
  - rewrite IH. reflexivity.
Qed.

Lemma filter_length_lt_iff (expense_id : Z) (l : list Expense) :
  Nat.ltb (length (List.filter (fun e => negb (Z.eqb (id e) expense_id)) l))
    (length l)
  = existsb (fun e => Z.eqb (id e) expense_id) l.
Proof.
  assert (Hle : forall l : list Expense,
    (length (List.filter (fun e => negb (Z.eqb (id e) expense_id)) l)
     <= length l)%nat).
  { intros l0. induction l0 as [|e l0 IH]; simpl; [lia|].
    destruct (negb (Z.eqb (id e) expense_id)); simpl; lia. }
  induction l as [|e l IH]; [reflexivity|].
  simpl. destruct (Z.eqb (id e) expense_id); simpl.
  - apply Nat.ltb_lt. specialize (Hle l). lia.
  - exact IH.
Qed.

Lemma existsb_without_id (expense_id : Z) (l : list Expense) :
  existsb (fun e => Z.eqb (id e) expense_id)
    (List.filter (fun e => negb (Z.eqb (id e) expense_id)) l) = false.
Proof.
  induction l as [|e l IH]; [reflexivity|].
  simpl. destruct (Z.eqb (id e) expense_id) eqn:E; simpl; [exact IH|].
  rewrite E. exact IH.
Qed.

Lemma filter_none_matching (expense_id : Z) (l : list Expense) :
  existsb (fun e => Z.eqb (id e) expense_id) l = false ->
  List.filter (fun e => negb (Z.eqb (id e) expense_id)) l = l.
Proof.
  induction l as [|e l IH]; [reflexivity|].
  simpl. destruct (Z.eqb (id e) expense_id); simpl; [discriminate|].
  intros H. rewrite (IH H). reflexivity.
Qed.

(** X2. [delete_expense] returns [True] exactly when a record has the id.
    Afterwards no record has the id, so the lookup finds nothing and a
    second deletion returns [False]; every record with another id is
    still found, the counter is not moved (a deleted id is not handed out
    again), and when nothing was deleted neither memory nor file
    changed. *)
Theorem delete_expense_removes_id
    (now now' : string) (w w' : write_outcome) (expense_id : Z) (s : Store) :
  let r := delete_expense now w expense_id s in
  fst r = existsb (fun e => Z.eqb (id e) expense_id) (expenses (data s))
  /\ expenses (data (snd r))
     = List.filter (fun e => negb (Z.eqb (id e) expense_id))
         (expenses (data s))
  /\ get_expense_by_id expense_id (snd r) = None
  /\ fst (delete_expense now' w' expense_id (snd r)) = false
  /\ (forall j : Z, j <> expense_id ->
        get_expense_by_id j (snd r) = get_expense_by_id j s)
  /\ next_id (data (snd r)) = next_id (data s)
  /\ (fst r = false ->
        expenses (data (snd r)) = expenses (data s)
        /\ last_updated (data (snd r)) = last_updated (data s)
        /\ db_file (snd r) = db_file s).
Proof.
  intros r.
  assert (Hexp : expenses (data (snd r))
                 = List.filter (fun e => negb (Z.eqb (id e) expense_id))
                     (expenses (data s))).
  { subst r. unfold delete_expense. rewrite data_modify_data.
    cbn [expenses set_expenses].
    destruct (Nat.ltb _ _); cbn [snd].
    - rewrite data_save_data, data_modify_data. reflexivity.
    - rewrite data_modify_data. reflexivity. }
  assert (Hfst : fst r
                 = existsb (fun e => Z.eqb (id e) expense_id)
                     (expenses (data s))).
  { subst r. unfold delete_expense. rewrite data_modify_data.
    cbn [expenses set_expenses]. rewrite filter_length_lt_iff.
    destruct (existsb _ _); reflexivity. }
  split; [exact Hfst|]. split; [exact Hexp|].
  split; [unfold get_expense_by_id; rewrite Hexp; apply find_without_id|].
  split.
  { unfold delete_expense at 1. rewrite data_modify_data.
    cbn [expenses set_expenses]. rewrite filter_length_lt_iff, Hexp.
    rewrite existsb_without_id. reflexivity. }
  split.
  { intros j Hj. unfold get_expense_by_id. rewrite Hexp.
    apply find_other_id_without; exact Hj. }
  split.
  { subst r. unfold delete_expense. rewrite data_modify_data.
    cbn [expenses set_expenses].
    destruct (Nat.ltb _ _); cbn [snd].
    - rewrite data_save_data, data_modify_data. reflexivity.
    - rewrite data_modify_data. reflexivity. }
  intros Hfalse. rewrite Hfst in Hfalse.
  rewrite Hexp, (filter_none_matching _ _ Hfalse).
  split; [reflexivity|].
  subst r. unfold delete_expense. rewrite data_modify_data.
  cbn [expenses set_expenses]. rewrite filter_length_lt_iff, Hfalse.
  cbn [snd]. rewrite data_modify_data. split; reflexivity.
Qed.

Lemma update_first_none (expense_id : Z) (updates : list field_update)
    (l : list Expense) :
  List.find (fun x => Z.eqb (id x) expense_id) l = None ->
  update_first expense_id updates l = None.
Proof.
  induction l as [|x l IH]; simpl; [reflexivity|].
  destruct (Z.eqb (id x) expense_id); [discriminate|].
  intros H. rewrite (IH H). reflexivity.
Qed.

Lemma update_first_frame (expense_id : Z) (updates : list field_update)
    (l l' : list Expense) :
  update_first expense_id updates l = Some l' ->
  map id l' = map id l
  /\ forall j : Z, j <> expense_id ->
       List.find (fun x => Z.eqb (id x) j) l'
       = List.find (fun x => Z.eqb (id x) j) l.
Proof.
  revert l'. induction l as [|x l IH]; intros l'; simpl; [discriminate|].
  destruct (Z.eqb_spec (id x) expense_id) as [Hx|Hx].
  - intros [= <-]. cbn [map List.find]. rewrite id_apply_updates.
    split; [reflexivity|].
    intros j Hj. destruct (Z.eqb_spec (id x) j); [congruence|reflexivity].
  - destruct (update_first expense_id updates l) as [l0|]; [|discriminate].
    intros [= <-]. destruct (IH l0 eq_refl) as [Hm Hf].
    simpl. rewrite Hm. split; [reflexivity|].
    intros j Hj. rewrite (Hf j Hj). reflexivity.
Qed.

(** X3. [update_expense], for an [updates] dict over the keys that
    [edit_expense] writes (its only caller; ['id'] is not among them): on
    an id that no record has it returns [False] and changes nothing, in
    memory or on file.  On an id that is there it returns [True] and
    rewrites the first record with the id: the lookup then finds the
    updated record, the ids of the list and their order are the same,
    every other id is looked up as before, and the counter is not
    moved. *)
Theorem update_expense_touches_one_record
    (now : string) (w : write_outcome) (expense_id : Z)
    (updates : list field_update) (s : Store) :
  let r := update_expense now w expense_id updates s in
  match get_expense_by_id expense_id s with
  | None => r = (false, s)
  | Some e =>
      fst r = true
      /\ get_expense_by_id expense_id (snd r) = Some (apply_updates updates e)
      /\ map id (expenses (data (snd r))) = map id (expenses (data s))
      /\ (forall j : Z, j <> expense_id ->
            get_expense_by_id j (snd r) = get_expense_by_id j s)
      /\ next_id (data (snd r)) = next_id (data s)
  end.
Proof.
  intros r. subst r. unfold update_expense, get_expense_by_id.
  destruct (List.find _ (expenses (data s))) as [e|] eqn:Hfind.
  - destruct (update_first_found expense_id updates _ e Hfind)
      as (l' & Hu & Hf).
    rewrite Hu. cbn [fst snd].
    destruct (update_first_frame _ _ _ _ Hu) as [Hm Hframe].
    rewrite expenses_save_modify, next_id_save_modify.
    repeat split; assumption.
  - rewrite (update_first_none _ updates _ Hfind). reflexivity.
Qed.

End ById.

(** ** What the add command accepts, and the ids it hands out *)
Section AddCommandFacts.
Import Database Commands.

Local Open Scope Q_scope.

(** When one of the checks of [add_expense] fails, the command answers
    with a rejection and the cog is what it was. *)
Lemma add_expense_rejected
    (env : Env) (city activity : string) (amount : Q)
    (cur category payer : string) (date notes : option string) (b : Bot) :
  str_in city CITIES && str_in category CATEGORIES && str_in payer PAYERS
  && str_in cur CURRENCIES
  && negb (truthy date && negb (validate_date env (default ""%string date)))
  && negb (Qle_bool amount 0) = false ->
  let r :=
    add_expense env city activity amount cur category payer date notes b in
  snd r = b /\ forall e : Expense, fst r <> ExpenseAdded e.
Proof.
  intros Hok r. subst r. unfold add_expense.
  destruct (str_in city CITIES); cbn [negb andb] in *;
    [|split; [reflexivity|discriminate]].
  destruct (str_in category CATEGORIES); cbn [negb andb] in *;
    [|split; [reflexivity|discriminate]].
  destruct (str_in payer PAYERS); cbn [negb andb] in *;
    [|split; [reflexivity|discriminate]].
  destruct (str_in cur CURRENCIES); cbn [negb andb] in *;
    [|split; [reflexivity|discriminate]].
  destruct (truthy date && negb (validate_date env (default ""%string date)));
    cbn [negb andb] in *; [split; [reflexivity|discriminate]|].
  destruct (Qle_bool amount 0); cbn [negb] in *;
    [split; [reflexivity|discriminate]|discriminate].
Qed.

(** The checks of [add_expense], as the hypotheses of
    [add_expense_valid]. *)
Lemma add_expense_checks_pass
    (env : Env) (city : string) (amount : Q)
    (cur category payer : string) (date : option string) :
  str_in city CITIES && str_in category CATEGORIES && str_in payer PAYERS
  && str_in cur CURRENCIES
  && negb (truthy date && negb (validate_date env (default ""%string date)))
  && negb (Qle_bool amount 0) = true ->
  str_in city CITIES = true
  /\ str_in category CATEGORIES = true
  /\ str_in payer PAYERS = true
  /\ str_in cur CURRENCIES = true
  /\ (truthy date = true -> validate_date env (default ""%string date) = true)
  /\ 0 < amount.
Proof.
  intros H.
  repeat (apply andb_true_iff in H; destruct H as [H ?]).
  repeat split; try assumption.
  - intros Ht.
    match goal with
    | Hd : negb (truthy date && _) = true |- _ =>
        rewrite Ht in Hd; cbn [andb] in Hd;
        apply negb_true_iff, negb_false_iff in Hd; exact Hd
    end.
  - match goal with
    | Ha : negb (Qle_bool amount 0) = true |- _ =>
        apply negb_true_iff in Ha
    end.
    apply Qnot_le_lt. intros Hle. apply Qle_bool_iff in Hle. congruence.
Qed.


Lemma find_app_last (expense_id : Z) (l : list Expense) (e : Expense) :
  id e = expense_id ->
  Forall (fun x => (id x < expense_id)%Z) l ->
  List.find (fun x => Z.eqb (id x) expense_id) (l ++ [e])%list = Some e.
Proof.
  intros He Hl. induction Hl as [|x l Hx Hl IH]; simpl.
  - rewrite He, Z.eqb_refl. reflexivity.
  - destruct (Z.eqb_spec (id x) expense_id); [lia|exact IH].
Qed.

(** X5. In a store where every id is below the counter and no id occurs
    twice, [add_expense] keeps it so, whatever its inputs.  A record it
    creates carries the old value of the counter as its id, an id no
    earlier record has; the counter moves up by one; and looking that id
    up finds the new record. *)
Theorem add_expense_hands_out_fresh_id
    (env : Env) (city activity : string) (amount : Q)
    (cur category payer : string) (date notes : option string) (b : Bot) :
  ids_fresh (data (db b)) ->
  let r :=
    add_expense env city activity amount cur category payer date notes b in
  ids_fresh (data (db (snd r)))
  /\ forall e : Expense,
       fst r = ExpenseAdded e ->
       id e = next_id (data (db b))
       /\ ~ In (id e) (map id (expenses (data (db b))))
       /\ next_id (data (db (snd r))) = (next_id (data (db b)) + 1)%Z
       /\ get_expense_by_id (id e) (db (snd r)) = Some e.
Proof.
  intros [Hnd Hlt] r.
  assert (Hnot : ~ In (next_id (data (db b)))
                     (map id (expenses (data (db b))))).
  { intros Hin. apply in_map_iff in Hin. destruct Hin as (x & Hx & Hin).
    pose proof (proj1 (List.Forall_forall _ _) Hlt x Hin) as H.
    simpl in H. lia. }
  destruct (str_in city CITIES && str_in category CATEGORIES
            && str_in payer PAYERS && str_in cur CURRENCIES
            && negb (truthy date
                     && negb (validate_date env (default ""%string date)))
            && negb (Qle_bool amount 0)) eqn:Hok.
  - destruct (add_expense_checks_pass env city amount cur category payer date
                Hok) as (H1 & H2 & H3 & H4 & H5 & H6).
    destruct (add_expense_valid env city activity amount cur category payer
                date notes b H1 H2 H3 H4 H5 H6)
      as (e & b' & amount_rmb & Hrun & _ & _ & _ & _ & _ & _ & _ & _ & _
          & Hid & Hl & Hn).
    subst r. rewrite Hrun. cbn [fst snd].
    split.
    + split.
      * rewrite Hl, map_app. cbn [map].
        apply NoDup_app. split; [exact Hnd|]. split.
        -- intros x Hx Hin. apply list_elem_of_singleton in Hin. subst x.
           apply list_elem_of_In in Hx. rewrite Hid in Hx. exact (Hnot Hx).
        -- apply NoDup_singleton.
      * rewrite Hl, Hn. apply Forall_app. split.
        -- eapply List.Forall_impl; [|exact Hlt]. intros x Hx. simpl in *. lia.
        -- constructor; [lia|constructor].
    + intros e' [= <-]. split; [exact Hid|]. split; [rewrite Hid; exact Hnot|].
      split; [exact Hn|].
      unfold get_expense_by_id. rewrite Hl.
      apply find_app_last; [reflexivity|]. rewrite Hid. exact Hlt.
  - destruct (add_expense_rejected env city activity amount cur category payer
                date notes b Hok) as [Hb Hno].
    fold r in Hb, Hno. rewrite Hb.
    split; [split; assumption|].
    intros e He. exfalso. exact (Hno e He).
Qed.

Lemma add_expense_hands_out_fresh_id_witness :
  exists e : Expense,
    fst (add_expense (Sample.env false WriteOk) "Guilin" "Boat" 30 "USD"
           "Activities" "Shirin" None None (Sample.bot Sample.default_rates))
    = ExpenseAdded e
    /\ id e = 4%Z.
Proof.
  assert (Hfresh : ids_fresh (data (db (Sample.bot Sample.default_rates)))).
  { split.
    - apply NoDup_ListNoDup. vm_compute.
      repeat constructor; simpl; intuition discriminate.
    - vm_compute. repeat constructor. }
  destruct (add_expense_hands_out_fresh_id (Sample.env false WriteOk) "Guilin"
              "Boat" 30 "USD" "Activities" "Shirin" None None
              (Sample.bot Sample.default_rates) Hfresh) as [_ H].
  eexists. split; [vm_compute; reflexivity|].
  apply H. vm_compute. reflexivity.
Defined.

End AddCommandFacts.

(** ** What the edit command can do to the store *)
Section EditCommandFacts.
Import Database Commands.

Local Open Scope Q_scope.

(** The last steps of [edit_expense] either leave the list of records
    alone or replace it by the result of the update loop. *)
Lemma commit_updates_effect
    (env : Env) (expense_id : Z) (updates : list field_update) (b : Bot) :
  let r := commit_updates env expense_id updates b in
  next_id (data (db (snd r))) = next_id (data (db b))
  /\ (expenses (data (db (snd r))) = expenses (data (db b))
      \/ exists l' : list Expense,
           update_first expense_id updates (expenses (data (db b))) = Some l'
           /\ expenses (data (db (snd r))) = l').
Proof.
  intros r. subst r. unfold commit_updates.
  destruct updates as [|u updates]; [split; [reflexivity|left; reflexivity]|].
  unfold update_expense.
  destruct (update_first expense_id (u :: updates) (expenses (data (db b))))
    as [l'|] eqn:Hu.
  - destruct (get_expense_by_id expense_id _); cbn [snd db];
      rewrite expenses_save_modify, next_id_save_modify;
      (split; [reflexivity|right; exists l'; split; reflexivity]).
  - cbn [snd db]. split; [reflexivity|left; reflexivity].
Qed.

(** What [edit_expense] does to the store, whatever its inputs: nothing,
    or one run of the update loop with the entries it collected. *)
Lemma edit_expense_effect
    (env : Env) (expense_id : Z) (amount : option Q)
    (cur activity category city payer date notes : option string) (b : Bot) :
  let r :=
    edit_expense env expense_id amount cur activity category city payer date
      notes b in
  next_id (data (db (snd r))) = next_id (data (db b))
  /\ (expenses (data (db (snd r))) = expenses (data (db b))
      \/ exists (e : Expense) (updates : list field_update)
           (l' : list Expense),
           get_expense_by_id expense_id (db b) = Some e
           /\ update_first expense_id updates (expenses (data (db b)))
              = Some l'
           /\ expenses (data (db (snd r))) = l'
           /\ (updates
               = plain_updates activity category city payer date notes
               \/ exists (a : Q) (uc : string) (amount_rmb : Q)
                    (rates : gmap string Q),
                    updates
                    = (plain_updates activity category city payer date notes
                       ++ amount_updates a uc amount_rmb
                            (edit_shares rates amount_rmb
                               (default (Database.payer e) payer)))%list)).
Proof.
  intros r. subst r. unfold edit_expense.
  destruct (get_expense_by_id expense_id (db b)) as [e|] eqn:Hget;
    [|split; [reflexivity|left; reflexivity]].
  repeat match goal with
         | |- context [if ?c then (_, b) else _] =>
             destruct c; [split; [reflexivity|left; reflexivity]|]
         end.
  destruct amount as [a|].
  - pose proof (get_rates_db env b) as Hdb.
    destruct (get_rates env b) as [rates b1]. cbn [fst snd] in Hdb.
    destruct (edit_amount_rmb rates a (str_or cur (original_currency e)))
      as [err|amount_rmb].
    + cbn [snd]. rewrite Hdb. split; [reflexivity|left; reflexivity].
    + match goal with
      | |- context [commit_updates env expense_id ?u b1] =>
          destruct (commit_updates_effect env expense_id u b1) as [Hn He]
      end.
      rewrite Hdb in Hn, He. split; [exact Hn|].
      destruct He as [He|(l' & Hu & He)]; [left; exact He|].
      right. exists e. eexists. exists l'.
      split; [reflexivity|]. split; [exact Hu|]. split; [exact He|].
      right. do 4 eexists. reflexivity.
  - destruct (commit_updates_effect env expense_id
                (plain_updates activity category city payer date notes) b)
      as [Hn He].
    split; [exact Hn|].
    destruct He as [He|(l' & Hu & He)]; [left; exact He|].
    right. exists e. eexists. exists l'.
    split; [reflexivity|]. split; [exact Hu|]. split; [exact He|].
    left. reflexivity.
Qed.

(** X6. [edit_expense], whatever its inputs and its answer, changes no id,
    adds or removes no record, does not move the counter, and leaves every
    record with another id as it was. *)
Theorem edit_expense_keeps_ids_and_other_records
    (env : Env) (expense_id : Z) (amount : option Q)
    (cur activity category city payer date notes : option string) (b : Bot) :
  let r :=
    edit_expense env expense_id amount cur activity category city payer date
      notes b in
  map id (expenses (data (db (snd r)))) = map id (expenses (data (db b)))
  /\ next_id (data (db (snd r))) = next_id (data (db b))
  /\ forall j : Z, j <> expense_id ->
       get_expense_by_id j (db (snd r)) = get_expense_by_id j (db b).
Proof.
  intros r.
  destruct (edit_expense_effect env expense_id amount cur activity category
              city payer date notes b) as [Hn He].
  fold r in Hn, He. split; [|split; [exact Hn|]].
  - destruct He as [He|(e & u & l' & _ & Hu & He & _)].
    + rewrite He. reflexivity.
    + rewrite He. exact (proj1 (update_first_frame _ _ _ _ Hu)).
  - intros j Hj. unfold get_expense_by_id.
    destruct He as [He|(e & u & l' & _ & Hu & He & _)].
    + rewrite He. reflexivity.
    + rewrite He. exact (proj2 (update_first_frame _ _ _ _ Hu) j Hj).
Qed.

(** The plain entries of [updates] do not touch the amounts. *)
Lemma apply_plain_updates_amounts
    (activity category city payer date notes : option string) (e : Expense) :
  let e' :=
    apply_updates (plain_updates activity category city payer date notes) e in
  total_rmb e' = total_rmb e
  /\ sunil_rmb e' = sunil_rmb e
  /\ shirin_rmb e' = shirin_rmb e.
Proof.
  destruct activity, category, city, payer, date, notes;
    cbv -[Qdiv Qmult Qplus]; repeat split; reflexivity.
Qed.

Lemma update_first_Forall (P : Expense -> Prop) (expense_id : Z)
    (updates : list field_update) (l l' : list Expense) :
  (forall x : Expense, P x -> P (apply_updates updates x)) ->
  update_first expense_id updates l = Some l' ->
  List.Forall P l -> List.Forall P l'.
Proof.
  intros HP. revert l'. induction l as [|x l IH]; intros l'; simpl;
    [discriminate|].
  destruct (Z.eqb (id x) expense_id).
  - intros [= <-] H. inversion H; subst. constructor; [apply HP|]; assumption.
  - destruct (update_first expense_id updates l) as [l0|]; [|discriminate].
    intros [= <-] H. inversion H; subst. constructor; [assumption|].
    apply (IH l0 eq_refl). assumption.
Qed.

(** X7. When the two RMB shares of every record of the store add up to
    the total of the record, they still do after [add_expense] and after
    [edit_expense], whatever the inputs and the answer of the command. *)
Theorem commands_keep_ledger_balanced (b : Bot) :
  List.Forall balanced (expenses (data (db b))) ->
  (forall (env : Env) (city activity : string) (amount : Q)
          (cur category payer : string) (date notes : option string),
      List.Forall balanced
        (expenses
           (data (db (snd (add_expense env city activity amount cur category
                             payer date notes b))))))
  /\ (forall (env : Env) (expense_id : Z) (amount : option Q)
             (cur activity category city payer date notes : option string),
        List.Forall balanced
          (expenses
             (data (db (snd (edit_expense env expense_id amount cur activity
                               category city payer date notes b)))))).
Proof.
  intros Hb. split.
  - intros env city activity amount cur category payer date notes.
    destruct (str_in city CITIES && str_in category CATEGORIES
              && str_in payer PAYERS && str_in cur CURRENCIES
              && negb (truthy date
                       && negb (validate_date env (default ""%string date)))
              && negb (Qle_bool amount 0)) eqn:Hok.
    + destruct (add_expense_checks_pass env city amount cur category payer
                  date Hok) as (H1 & H2 & H3 & H4 & H5 & H6).
      destruct (add_expense_valid env city activity amount cur category payer
                  date notes b H1 H2 H3 H4 H5 H6)
        as (e & b' & amount_rmb & Hrun & _ & _ & _ & _ & Ht & Hsu & Hsh & _
            & _ & _ & Hl & _).
      rewrite Hrun. cbn [snd]. rewrite Hl.
      apply List.Forall_app. split; [exact Hb|].
      constructor; [|constructor].
      unfold balanced. rewrite Ht, Hsu, Hsh. apply add_shares_sum.
    + rewrite (proj1 (add_expense_rejected env city activity amount cur
                        category payer date notes b Hok)).
      exact Hb.
  - intros env expense_id amount cur activity category city payer date notes.
    destruct (edit_expense_effect env expense_id amount cur activity category
                city payer date notes b)
      as [_ [He|(e & u & l' & _ & Hu & He & Hcase)]].
    + rewrite He. exact Hb.
    + rewrite He. apply (update_first_Forall balanced expense_id u
               (expenses (data (db b))) l');
        [|exact Hu|exact Hb].
      intros x Hx. destruct Hcase as [->|(a & uc & amount_rmb & rates & ->)].
      * destruct (apply_plain_updates_amounts activity category city payer
                    date notes x) as (Ht & Hsu & Hsh).
        unfold balanced in *. rewrite Ht, Hsu, Hsh. exact Hx.
      * destruct (apply_edit_updates activity category city payer date notes
                    a uc amount_rmb
                    (edit_shares rates amount_rmb
                       (default (Database.payer e) payer)) x)
          as (_ & _ & _ & _ & _ & _ & _ & _ & _ & _ & Ht & Hsu & Hsh & _).
        unfold balanced. rewrite Ht, Hsu, Hsh. apply edit_shares_sum.
Qed.

Lemma commands_keep_ledger_balanced_witness :
  List.Forall balanced
    (expenses
       (data (db (snd (edit_expense (Sample.env false WriteOk) 1 None None
                         None None None (Some "Sunil"%string) None None
                         (Sample.bot Sample.default_rates)))))).
Proof.
  assert (Hb : List.Forall balanced
                 (expenses (data (db (Sample.bot Sample.default_rates))))).
  { vm_compute. repeat constructor. }
  destruct (commands_keep_ledger_balanced (Sample.bot Sample.default_rates) Hb)
    as [_ H].
  apply H.
Defined.

End EditCommandFacts.

(** ** Attachments *)
Section Attachments.
Import Database.

Lemma add_document_loop_found (expense_id : Z) (d : Document)
    (l : list Expense) (e : Expense) :
  List.find (fun x => Z.eqb (id x) expense_id) l = Some e ->
  exists l' : list Expense,
    add_document_loop expense_id d l = Some l'
    /\ List.find (fun x => Z.eqb (id x) expense_id) l'
       = Some (set_documents
                 (Some (default [] (documents e) ++ [d])%list) e).
Proof.
  induction l as [|x l IH]; simpl; [discriminate|].
  destruct (Z.eqb (id x) expense_id) eqn:E.
  - intros [= ->]. eexists. split; [reflexivity|].
    simpl. rewrite E. reflexivity.
  - intros H. destruct (IH H) as (l' & Hl & Hf).
    exists (x :: l'). rewrite Hl. split; [reflexivity|].
    simpl. rewrite E. exact Hf.
Qed.

Lemma add_document_loop_none (expense_id : Z) (d : Document)
    (l : list Expense) :
  List.find (fun x => Z.eqb (id x) expense_id) l = None ->
  add_document_loop expense_id d l = None.
Proof.
  induction l as [|x l IH]; simpl; [reflexivity|].
  destruct (Z.eqb (id x) expense_id); [discriminate|].
  intros H. rewrite (IH H). reflexivity.
Qed.

Lemma delete_document_loop_found (expense_id : Z) (name : string)
    (l : list Expense) (e : Expense) (docs : list Document) :
  List.find (fun x => Z.eqb (id x) expense_id) l = Some e ->
  documents e = Some docs ->
  exists l' : list Expense,
    delete_document_loop expense_id name l = Some l'
    /\ List.find (fun x => Z.eqb (id x) expense_id) l'
       = Some (set_documents (Some (without_filename name docs)) e).
Proof.
  intros Hfind Hdocs. induction l as [|x l IH]; simpl in *; [discriminate|].
  destruct (Z.eqb (id x) expense_id) eqn:E.
  - injection Hfind as ->. rewrite Hdocs. eexists. split; [reflexivity|].
    simpl. rewrite E. reflexivity.
  - destruct (IH Hfind) as (l' & Hl & Hf).
    exists (x :: l'). rewrite Hl. split; [reflexivity|].
    simpl. rewrite E. exact Hf.
Qed.

Lemma without_filename_app (name : string) (docs : list Document)
    (d : Document) :
  filename d = name ->
  without_filename name (docs ++ [d]) = without_filename name docs.
Proof.
  intros <-. unfold without_filename. rewrite List.filter_app. simpl.
  rewrite String.eqb_refl. simpl. apply app_nil_r.
Qed.

Lemma without_filename_absent (name : string) (docs : list Document) :
  List.Forall (fun x => filename x <> name) docs ->
  without_filename name docs = docs.
Proof.
  induction 1 as [|x docs Hx _ IH]; [reflexivity|].
  unfold without_filename in *. simpl.
  apply String.eqb_neq in Hx. rewrite Hx. simpl. rewrite IH. reflexivity.
Qed.

(** X8. Attaching a document to an expense that exists returns [True] and
    puts the document at the end of the list of the expense (a missing
    ['documents'] key is created).  Deleting by the file name of that
    document then returns [True] and leaves the earlier documents with
    another name; when no earlier document had the name, the list is the
    one from before the upload.  On an id that no record has,
    [add_document_to_expense] returns [False] and changes nothing. *)
Theorem add_document_then_delete_document
    (now1 now2 : string) (w1 w2 : write_outcome) (expense_id : Z)
    (d : Document) (s : Store) :
  let r1 := add_document_to_expense now1 w1 expense_id d s in
  let r2 := delete_document now2 w2 expense_id (filename d) (snd r1) in
  match get_expense_by_id expense_id s with
  | None => r1 = (false, s)
  | Some e =>
      let before := default [] (documents e) in
      fst r1 = true
      /\ (documents <$> get_expense_by_id expense_id (snd r1))
         = Some (Some (before ++ [d])%list)
      /\ fst r2 = true
      /\ (documents <$> get_expense_by_id expense_id (snd r2))
         = Some (Some (without_filename (filename d) before))
      /\ (List.Forall (fun x => filename x <> filename d) before ->
            (documents <$> get_expense_by_id expense_id (snd r2))
            = Some (Some before))
  end.
Proof.
  intros r1 r2. subst r1 r2.
  unfold add_document_to_expense, get_expense_by_id.
  destruct (List.find _ (expenses (data s))) as [e|] eqn:Hfind.
  - destruct (add_document_loop_found expense_id d _ e Hfind)
      as (l1 & Hl1 & Hf1).
    rewrite Hl1. cbn [fst snd]. cbv zeta.
    unfold delete_document. rewrite expenses_save_modify.
    destruct (delete_document_loop_found expense_id (filename d) l1 _
                (default [] (documents e) ++ [d])%list Hf1 eq_refl)
      as (l2 & Hl2 & Hf2).
    rewrite Hl2. cbn [fst snd]. rewrite !expenses_save_modify.
    rewrite Hf1, Hf2. cbn [fmap option_fmap option_map documents set_documents].
    rewrite without_filename_app by reflexivity.
    repeat split; try reflexivity.
    intros Habsent. rewrite (without_filename_absent _ _ Habsent). reflexivity.
  - rewrite (add_document_loop_none _ d _ Hfind). reflexivity.
Qed.

Lemma count_documents_flat_map (l : list Expense) (n : nat) :
  fold_left
    (fun n e =>
       match documents e with
       | Some docs => (n + length docs)%nat
       | None => n
       end) l n
  = (n + length
           (flat_map
              (fun e =>
                 map (mkDocumentInfo (id e) (activity e) (date e) (city e))
                   (default [] (documents e))) l))%nat.
Proof.
  revert n. induction l as [|e l IH]; intros n; simpl; [lia|].
  rewrite IH, length_app, length_map.
  destruct (documents e); simpl; lia.
Qed.

(** X9. [get_all_documents] lists every document of every expense once,
    each with the id, activity, date and city of its expense, so its
    length is the [total_documents] of [get_database_stats]; an upload is
    never listed after an earlier one. *)
Theorem get_all_documents_lists_every_document (s : Store) :
  length (get_all_documents s) = total_documents (get_database_stats s)
  /\ StronglySorted
       (fun a b => String.ltb (uploaded_at (doc a)) (uploaded_at (doc b))
                   = false)
       (get_all_documents s)
  /\ forall info : DocumentInfo,
       In info (get_all_documents s)
       <-> exists (e : Expense) (d : Document),
             In e (expenses (data s))
             /\ documents e <> None
             /\ In d (default [] (documents e))
             /\ info = mkDocumentInfo (id e) (activity e) (date e) (city e) d.
Proof.
  unfold get_all_documents, get_database_stats. cbn [total_documents].
  split; [|split].
  - rewrite sort_desc_length, count_documents_flat_map. reflexivity.
  - apply (sort_desc_sorted
             (fun a b => String.ltb (uploaded_at (doc a)) (uploaded_at (doc b)))).
    + intros a b. apply ltb_asym.
    + intros a b c. apply ltb_false_trans.
  - intros info. split.
    + intros Hin. apply (Permutation_in _ (sort_desc_perm _ _)) in Hin.
      apply in_flat_map in Hin. destruct Hin as (e & He & Hin).
      apply in_map_iff in Hin. destruct Hin as (d & <- & Hd).
      exists e, d. repeat split; try assumption.
      destruct (documents e); [discriminate|destruct Hd].
    + intros (e & d & He & _ & Hd & ->).
      apply (Permutation_in _ (Permutation_sym (sort_desc_perm _ _))).
      apply in_flat_map. exists e. split; [exact He|].
      apply in_map. exact Hd.
Qed.

End Attachments.

(** ** Sums and dicts built key by key *)
Section Sums.

Local Open Scope Q_scope.


Context {A : Type}.





(** Updating and then projecting the values is projecting and then
    updating. *)
Lemma dict_update_map {B : Type} (proj : A -> B) (g : B -> B) (k : string)
    (init : A) (f : A -> A) (d : list (string * A)) :
  (forall v : A, proj (f v) = g (proj v)) ->
  map (fun kv => (fst kv, proj (snd kv))) (dict_update k init f d)
  = dict_update k (proj init) g (map (fun kv => (fst kv, proj (snd kv))) d).
Proof.
  intros Hf. induction d as [|[k' v] d IH]; simpl.
  - rewrite Hf. reflexivity.
  - destruct (String.eqb k' k); simpl; [rewrite Hf|rewrite IH]; reflexivity.
Qed.

End Sums.

(** ** Statistics *)
Section Statistics.
Import Database.

Local Open Scope Q_scope.

(** The loop of [get_summary_stats], field by field. *)
Lemma fold_summary_step (l : list Expense) (st : SummaryStats) :
  let st' := fold_left summary_step l st in
  total_expenses st' = total_expenses st
  /\ sum_total_rmb st' = fold_left Qplus (map total_rmb l) (sum_total_rmb st)
  /\ sunil_total_rmb st'
     = fold_left Qplus (map sunil_rmb l) (sunil_total_rmb st)
  /\ sunil_total_gbp st'
     = fold_left Qplus (map sunil_gbp l) (sunil_total_gbp st)
  /\ shirin_total_rmb st'
     = fold_left Qplus (map shirin_rmb l) (shirin_total_rmb st)
  /\ shirin_total_aed st'
     = fold_left Qplus (map shirin_aed l) (shirin_total_aed st)
  /\ categories st'
     = fold_left
         (fun d e =>
            dict_update (category e) (mkCategoryStats 0 0 0 0 0 0)
              (add_to_category e) d)
         l (categories st)
  /\ cities st'
     = fold_left
         (fun d e => dict_update (city e) (mkTally 0 0) (add_to_tally e) d)
         l (cities st)
  /\ date_range st' = date_range st.
Proof.
  revert st. induction l as [|e l IH]; intros st; simpl.
  - repeat split; reflexivity.
  - apply (IH (summary_step st e)).
Qed.

(** The dict of [get_summary_stats], field by field, for the empty list
    too. *)
Lemma get_summary_stats_fields (l : list Expense) :
  let st := get_summary_stats l in
  total_expenses st = length l
  /\ sum_total_rmb st = py_sum (map total_rmb l)
  /\ sunil_total_rmb st = py_sum (map sunil_rmb l)
  /\ sunil_total_gbp st = py_sum (map sunil_gbp l)
  /\ shirin_total_rmb st = py_sum (map shirin_rmb l)
  /\ shirin_total_aed st = py_sum (map shirin_aed l)
  /\ categories st
     = fold_left
         (fun d e =>
            dict_update (category e) (mkCategoryStats 0 0 0 0 0 0)
              (add_to_category e) d)
         l []
  /\ cities st
     = fold_left
         (fun d e => dict_update (city e) (mkTally 0 0) (add_to_tally e) d)
         l []
  /\ date_range st = (py_min (map date l), py_max (map date l)).
Proof.
  destruct l as [|e l]; [repeat split; reflexivity|].
  unfold get_summary_stats.
  pose proof (fold_summary_step (e :: l)
                (mkSummaryStats (length (e :: l)) 0 0 0 0 0 [] [] (None, None)))
    as H.
  cbv zeta in H. cbn [total_expenses sum_total_rmb sunil_total_rmb
    sunil_total_gbp shirin_total_rmb shirin_total_aed categories cities
    date_range] in *.
  destruct H as (H1 & H2 & H3 & H4 & H5 & H6 & H7 & H8 & _).
  repeat split; assumption.
Qed.




Lemma fold_tally_of_categories (l : list Expense)
    (d : list (string * CategoryStats)) :
  map (fun kv => (fst kv, mkTally (cat_count (snd kv)) (cat_total_rmb (snd kv))))
    (fold_left
       (fun d e =>
          dict_update (category e) (mkCategoryStats 0 0 0 0 0 0)
            (add_to_category e) d)
       l d)
  = fold_left
      (fun d e => dict_update (category e) (mkTally 0 0) (add_to_tally e) d)
      l
      (map (fun kv =>
              (fst kv, mkTally (cat_count (snd kv)) (cat_total_rmb (snd kv))))
         d).
Proof.
  revert d. induction l as [|e l IH]; intros d; simpl; [reflexivity|].
  rewrite IH. f_equal.
  apply (dict_update_map
           (fun c => mkTally (cat_count c) (cat_total_rmb c))
           (add_to_tally e)).
  intros v. reflexivity.
Qed.

(** X12. [get_database_stats] and [get_summary_stats] of the records of
    the store agree on the number of records, on the breakdown by city,
    on the breakdown by category (count and RMB total of each, in the
    same key order) and, when the store has records, on the date range;
    [get_database_stats] has no date range on the empty store and reports
    the counter of the store. *)
Theorem get_database_stats_agrees_with_summary (s : Store) :
  let l := expenses (data s) in
  let st := get_summary_stats l in
  let ds := get_database_stats s in
  db_total_expenses ds = total_expenses st
  /\ db_total_expenses ds = length l
  /\ db_cities ds = cities st
  /\ db_categories ds
     = map (fun kv =>
              (fst kv, mkTally (cat_count (snd kv)) (cat_total_rmb (snd kv))))
         (categories st)
  /\ db_date_range ds
     = match l with [] => None | _ => Some (date_range st) end
  /\ db_next_id ds = next_id (data s).
Proof.
  intros l st ds.
  destruct (get_summary_stats_fields l)
    as (Hn & _ & _ & _ & _ & _ & Hc & Hy & Hd).
  fold st in Hn, Hc, Hy, Hd.
  rewrite Hn, Hc, Hy, Hd, fold_tally_of_categories.
  subst ds l. unfold get_database_stats.
  cbn [db_total_expenses db_cities db_categories db_date_range db_next_id].
  repeat split; reflexivity.
Qed.

End Statistics.

(** ** Refreshing and starting the rate cache *)
Lemma supported_currency_cases (k : string) :
  k ∈ ({["GBP"; "AED"; "USD"; "EUR"]} : gset string) ->
  k = "GBP" \/ k = "AED" \/ k = "USD" \/ k = "EUR".
Proof.
  rewrite !elem_of_union, !elem_of_singleton. tauto.
Qed.

Section RefreshFacts.
Import Currency.
Context {V : Type}.
Variable of_float : Q -> V.
Variable formats_4f : V -> bool.
Variable older_than_4h : string -> option bool.

Lemma extract_rates_lookup (rates_data old : gmap string V) :
  extract_rates of_float rates_data old !! "GBP"
  = Some (pick of_float rates_data old "GBP" 0.11%Q)
  /\ extract_rates of_float rates_data old !! "AED"
     = Some (pick of_float rates_data old "AED" 0.52%Q)
  /\ extract_rates of_float rates_data old !! "USD"
     = Some (pick of_float rates_data old "USD" 0.14%Q)
  /\ extract_rates of_float rates_data old !! "EUR"
     = Some (pick of_float rates_data old "EUR" 0.13%Q).
Proof.
  unfold extract_rates.
  rewrite lookup_insert_eq.
  rewrite (lookup_insert_ne _ "GBP" "AED") by discriminate.
  rewrite lookup_insert_eq.
  rewrite !(lookup_insert_ne _ _ "USD") by discriminate.
  rewrite lookup_insert_eq.
  rewrite !(lookup_insert_ne _ _ "EUR") by discriminate.
  rewrite lookup_insert_eq.
  repeat split; reflexivity.
Qed.

Lemma extract_rates_dom (rates_data old : gmap string V) :
  dom (extract_rates of_float rates_data old)
  = ({["GBP"; "AED"; "USD"; "EUR"]} : gset string).
Proof.
  unfold extract_rates. rewrite !dom_insert_L, dom_empty_L. set_solver.
Qed.


End RefreshFacts.

(** ** When the snapshot is replaced *)
Section StaleSnapshot.
Import Currency.
Context {V : Type}.
Variable of_float : Q -> V.
Variable formats_4f : V -> bool.
Variable fromisoformat : string -> option Z.
Variable clock : Z.

(** X13. [get_rates] replaces the snapshot only when it is stale.  The
    snapshot is stale when it has no stamp or an empty one, when the
    stamp does not parse, or when the stamp is more than four hours
    before the clock; exactly four hours is not stale.  While it is not
    stale the held mapping is returned as it is and the converter is not
    touched, whatever the endpoints would answer.  When it is stale and
    the first endpoint answers 200 with a rate dict whose pound and dirham
    entries can be formatted, the new mapping has exactly the four
    currencies GBP, AED, USD and EUR (every other key of the old mapping
    and of the answer is dropped), each taken from the answer, else from
    the old mapping; the stamp is the time of the fetch, the file is
    written, and the backup endpoint plays no part. *)
Theorem get_rates_replaces_only_stale_snapshot
    (net : Remote V) (c : Converter V) :
  let older := age_exceeds_4h fromisoformat clock in
  let stale :=
    match last_updated c with
    | None => True
    | Some t =>
        t = ""
        \/ match fromisoformat t with
           | None => True
           | Some last_update => (four_hours < clock - last_update)%Z
           end
    end in
  four_hours = 14400000000%Z
  /\ (should_update_rates older c = true <-> stale)
  /\ (~ stale ->
      get_rates of_float formats_4f older net c = (rates c, c))
  /\ (forall rates_data : gmap string V,
        stale ->
        primary net = Http 200 (Some rates_data) ->
        formats_4f (pick of_float rates_data (rates c) "GBP" 0.11%Q) = true ->
        formats_4f (pick of_float rates_data (rates c) "AED" 0.52%Q) = true ->
        let r := get_rates of_float formats_4f older net c in
        fst r = extract_rates of_float rates_data (rates c)
        /\ rates (snd r) = fst r
        /\ dom (fst r) = ({["GBP"; "AED"; "USD"; "EUR"]} : gset string)
        /\ (forall (k : string) (v : V),
              k ∈ ({["GBP"; "AED"; "USD"; "EUR"]} : gset string) ->
              rates_data !! k = Some v -> fst r !! k = Some v)
        /\ (forall (k : string) (v : V),
              k ∈ ({["GBP"; "AED"; "USD"; "EUR"]} : gset string) ->
              rates_data !! k = None -> rates c !! k = Some v ->
              fst r !! k = Some v)
        /\ last_updated (snd r) = Some (primary_now net)
        /\ rates_file (snd r)
           = write_json (primary_write net)
               (mkRatesFile (fst r) (Some (primary_now net)) "CNY")
               (rates_file c)).
Proof.
  intros older stale.
  assert (Hstale : should_update_rates older c = true <-> stale).
  { subst older stale. unfold should_update_rates, age_exceeds_4h, truthy.
    destruct (last_updated c) as [t|]; [|simpl; tauto].
    destruct (String.eqb_spec t "") as [->|Hne]; [simpl; tauto|].
    cbn [negb]. destruct (fromisoformat t) as [u|]; cbn [default from_option id].
    - rewrite Z.ltb_lt. tauto.
    - tauto. }
  split; [reflexivity|]. split; [exact Hstale|]. split.
  - intros Hfresh. unfold get_rates, update_rates.
    destruct (should_update_rates older c) eqn:E; [|reflexivity].
    exfalso. apply Hfresh, Hstale. reflexivity.
  - intros rates_data Hs Hp Hg Ha r. subst r.
    apply Hstale in Hs.
    unfold get_rates, update_rates, fetch_live_rates. rewrite Hs, Hp.
    destruct (extract_rates_lookup of_float rates_data (rates c))
      as (Lg & La & Lu & Le).
    unfold attempt, formats_rate, save_rates. cbn [Z.eqb Pos.eqb rates].
    rewrite Lg, La, Hg, Ha. cbn [andb fst snd rates last_updated rates_file].
    split; [reflexivity|]. split; [reflexivity|].
    split; [apply extract_rates_dom|].
    split; [|split; [|split; reflexivity]].
    + intros k v Hk Hv.
      destruct (supported_currency_cases k Hk) as [-> | [-> | [-> | ->]]];
        [rewrite Lg|rewrite La|rewrite Lu|rewrite Le];
        unfold pick; rewrite Hv; reflexivity.
    + intros k v Hk Hnone Hold.
      destruct (supported_currency_cases k Hk) as [-> | [-> | [-> | ->]]];
        [rewrite Lg|rewrite La|rewrite Lu|rewrite Le];
        unfold pick; rewrite Hnone, Hold; reflexivity.
Qed.

End StaleSnapshot.

Section StaleSnapshotExamples.
Import Currency.

(** Three hours after its stamp the sample converter keeps its mapping
    although the first endpoint would answer; five hours after it takes
    the pound rate of the answer and keeps its dollar rate. *)
Lemma get_rates_replaces_only_stale_snapshot_witness :
  get_rates (fun q : Q => q) (fun _ : Q => true)
    (age_exceeds_4h Sample.fromisoformat Sample.three_hours_later)
    Sample.online (Sample.converter Sample.default_rates)
  = (Sample.default_rates, Sample.converter Sample.default_rates)
  /\ fst (get_rates (fun q : Q => q) (fun _ : Q => true)
            (age_exceeds_4h Sample.fromisoformat Sample.five_hours_later)
            Sample.online (Sample.converter Sample.default_rates))
       !! "GBP" = Some 0.12%Q
  /\ fst (get_rates (fun q : Q => q) (fun _ : Q => true)
            (age_exceeds_4h Sample.fromisoformat Sample.five_hours_later)
            Sample.online (Sample.converter Sample.default_rates))
       !! "USD" = Some 0.14%Q.
Proof.
  destruct (get_rates_replaces_only_stale_snapshot
              (fun q : Q => q) (fun _ : Q => true) Sample.fromisoformat
              Sample.three_hours_later Sample.online
              (Sample.converter Sample.default_rates))
    as (_ & _ & Hfresh & _).
  destruct (get_rates_replaces_only_stale_snapshot
              (fun q : Q => q) (fun _ : Q => true) Sample.fromisoformat
              Sample.five_hours_later Sample.online
              (Sample.converter Sample.default_rates))
    as (_ & _ & _ & Hstale).
  split.
  - apply Hfresh. cbn. intros [H|H]; [discriminate H|].
    vm_compute in H. discriminate H.
  - destruct (Hstale (<["GBP" := 0.12%Q]> (<["AED" := 0.5%Q]> ∅)))
      as (_ & _ & _ & Hnew & Hkept & _).
    + cbn. right. vm_compute. reflexivity.
    + reflexivity.
    + reflexivity.
    + reflexivity.
    + split.
      * apply Hnew; [set_solver|reflexivity].
      * apply Hkept; [set_solver|reflexivity|reflexivity].
Defined.

End StaleSnapshotExamples.

(** ** The two conversion paths side by side *)
Section ConversionPaths.
Import Database Commands.

Local Open Scope Q_scope.

(** X15. The conversions of [add_expense] and of [edit_expense] side by
    side.  The one of [add_expense] never raises.  For GBP, AED, USD and
    EUR with a held rate [r] (or the default of the currency when none is
    held): when [r] is zero [add_expense] multiplies the amount by the
    fallback constant of the currency while [edit_expense] raises
    [ZeroDivisionError]; otherwise [add_expense] computes
    [amount * (1 / r)] and [edit_expense] computes [amount / r].  For
    every other currency both take the amount as RMB.  From the same RMB
    amount the two commands derive the same two RMB shares, and the same
    home amount of a party that pays; for a party that does not pay,
    [add_expense] stores the constant 0 and [edit_expense] stores 0 times
    the rate of that party. *)
Theorem add_and_edit_conversion_paths
    (rates : gmap string Q) (amount : Q) (cur payer : string) :
  (exists v : Q, add_amount_rmb rates amount cur = inr v)
  /\ (forall d fallback : Q,
        In (cur, d, fallback)
          [("GBP"%string, 0.11, 9.09); ("AED"%string, 0.52, 1.92);
           ("USD"%string, 0.14, 7.14); ("EUR"%string, 0.13, 7.69)] ->
        if Qeq_bool (rate rates cur d) 0
        then add_amount_rmb rates amount cur = inr (amount * fallback)
             /\ edit_amount_rmb rates amount cur = inl ZeroDivisionError
        else add_amount_rmb rates amount cur
             = inr (amount * (1 / rate rates cur d))
             /\ edit_amount_rmb rates amount cur
                = inr (amount / rate rates cur d))
  /\ (~ In cur ["GBP"; "AED"; "USD"; "EUR"]%string ->
      add_amount_rmb rates amount cur = inr amount
      /\ edit_amount_rmb rates amount cur = inr amount)
  /\ (forall v : Q,
        let a := add_shares rates v payer in
        let e := edit_shares rates v payer in
        s_sunil_rmb a = s_sunil_rmb e
        /\ s_shirin_rmb a = s_shirin_rmb e
        /\ (payer = "Couple"%string ->
            s_sunil_gbp a = s_sunil_gbp e /\ s_shirin_aed a = s_shirin_aed e)
        /\ (payer = "Sunil"%string ->
            s_sunil_gbp a = s_sunil_gbp e
            /\ s_shirin_aed a = 0
            /\ s_shirin_aed e = 0 * rate rates "AED" 0.52)
        /\ (payer <> "Couple"%string -> payer <> "Sunil"%string ->
            s_shirin_aed a = s_shirin_aed e
            /\ s_sunil_gbp a = 0
            /\ s_sunil_gbp e = 0 * rate rates "GBP" 0.11)).
Proof.
  split; [apply add_amount_rmb_total|].
  split; [|split].
  - intros d fallback Hin. simpl in Hin.
    destruct Hin as [H|[H|[H|[H|[]]]]]; injection H as <- <- <-;
      unfold add_amount_rmb, edit_amount_rmb, py_div;
      cbn [String.eqb Ascii.eqb Bool.eqb]; rewrite inverse_or_value;
      destruct (Qeq_bool _ 0); split; reflexivity.
  - intros Hcur. unfold add_amount_rmb, edit_amount_rmb.
    destruct (String.eqb_spec cur "RMB"); [split; reflexivity|].
    destruct (String.eqb_spec cur "GBP") as [->|_];
      [exfalso; apply Hcur; simpl; tauto|].
    destruct (String.eqb_spec cur "AED") as [->|_];
      [exfalso; apply Hcur; simpl; tauto|].
    destruct (String.eqb_spec cur "USD") as [->|_];
      [exfalso; apply Hcur; simpl; tauto|].
    destruct (String.eqb_spec cur "EUR") as [->|_];
      [exfalso; apply Hcur; simpl; tauto|].
    split; reflexivity.
  - intros v a e. subst a e. unfold add_shares, edit_shares.
    destruct (String.eqb_spec payer "Couple") as [->|Hc].
    + cbn [s_sunil_rmb s_shirin_rmb s_sunil_gbp s_shirin_aed].
      split; [reflexivity|]. split; [reflexivity|].
      split; [intros _; split; reflexivity|].
      split; [discriminate|]. intros H. contradiction H. reflexivity.
    + destruct (String.eqb_spec payer "Sunil") as [->|Hs];
        cbn [s_sunil_rmb s_shirin_rmb s_sunil_gbp s_shirin_aed].
      * split; [reflexivity|]. split; [reflexivity|].
        split; [discriminate|].
        split; [intros _; repeat split; reflexivity|].
        intros _ H. contradiction H. reflexivity.
      * split; [reflexivity|]. split; [reflexivity|].
        split; [intros H; contradiction|].
        split; [intros H; contradiction|].
        intros _ _. repeat split; reflexivity.
Qed.

Lemma add_and_edit_conversion_paths_witness :
  (add_amount_rmb Sample.default_rates 22 "GBP"
   = inr (22 * (1 / rate Sample.default_rates "GBP" 0.11))
   /\ edit_amount_rmb Sample.default_rates 22 "GBP"
      = inr (22 / rate Sample.default_rates "GBP" 0.11))
  /\ (add_amount_rmb Sample.zero_gbp 22 "GBP" = inr (22 * 9.09)
      /\ edit_amount_rmb Sample.zero_gbp 22 "GBP" = inl ZeroDivisionError)
  /\ (add_amount_rmb Sample.default_rates 22 "JPY" = inr 22
      /\ edit_amount_rmb Sample.default_rates 22 "JPY" = inr 22).
Proof.
  split; [|split].
  - exact (proj1 (proj2 (add_and_edit_conversion_paths Sample.default_rates
                           22 "GBP" "Couple"))
             0.11 9.09 (or_introl eq_refl)).
  - exact (proj1 (proj2 (add_and_edit_conversion_paths Sample.zero_gbp
                           22 "GBP" "Couple"))
             0.11 9.09 (or_introl eq_refl)).
  - apply (proj1 (proj2 (proj2 (add_and_edit_conversion_paths
                                  Sample.default_rates 22 "JPY" "Couple")))).
    simpl. intros [H|[H|[H|[H|[]]]]]; discriminate H.
Defined.

(** X16. Who bears an added expense.  On inputs that pass the checks
    [add_expense] answers with a record in which the payer bears the
    whole RMB total: paid by Sunil, [sunil_rmb] is the total,
    [sunil_gbp] is the total times the pound rate, and both amounts of
    Shirin are the constant 0; the same with the dirham rate when paid by
    Shirin; paid jointly, each RMB share is the total divided by 2 and
    each home amount is that share times the rate of the party.  The
    total is the amount itself for RMB; for GBP it is
    [amount * (1 / r)] under a held pound rate [r] other than zero, and
    the amount times the fallback 9.09 under a held pound rate of zero,
    in which case [sunil_gbp] is that total times the zero rate. *)
Theorem add_expense_payer_bears_total
    (env : Env) (city activity : string) (amount : Q)
    (cur category payer : string) (date notes : option string) (b : Bot) :
  str_in city CITIES = true ->
  str_in category CATEGORIES = true ->
  str_in payer PAYERS = true ->
  str_in cur CURRENCIES = true ->
  (truthy date = true -> validate_date env (default ""%string date) = true) ->
  0 < amount ->
  let rates := fst (get_rates env b) in
  exists (e : Expense) (b' : Bot),
    add_expense env city activity amount cur category payer date notes b
    = (ExpenseAdded e, b')
    /\ (payer = "Sunil"%string ->
        sunil_rmb e = total_rmb e
        /\ sunil_gbp e = total_rmb e * rate rates "GBP" 0.11
        /\ shirin_rmb e = 0
        /\ shirin_aed e = 0)
    /\ (payer = "Shirin"%string ->
        shirin_rmb e = total_rmb e
        /\ shirin_aed e = total_rmb e * rate rates "AED" 0.52
        /\ sunil_rmb e = 0
        /\ sunil_gbp e = 0)
    /\ (payer = "Couple"%string ->
        sunil_rmb e = total_rmb e / 2
        /\ shirin_rmb e = total_rmb e / 2
        /\ sunil_gbp e = total_rmb e / 2 * rate rates "GBP" 0.11
        /\ shirin_aed e = total_rmb e / 2 * rate rates "AED" 0.52)
    /\ (cur = "RMB"%string -> total_rmb e = amount)
    /\ (cur = "GBP"%string ->
        if Qeq_bool (rate rates "GBP" 0.11) 0
        then total_rmb e = amount * 9.09
        else total_rmb e = amount * (1 / rate rates "GBP" 0.11)).
Proof.
  intros Hcity Hcat Hpayer Hcur Hdate Hamount rates.
  destruct (add_expense_valid env city activity amount cur category payer
              date notes b Hcity Hcat Hpayer Hcur Hdate Hamount)
    as (e & b' & amount_rmb & Hrun & Ha & _ & _ & _ & Ht & Hsu & Hsh & Hg
        & Hae & _).
  fold rates in Ha, Hsu, Hsh, Hg, Hae.
  exists e, b'. split; [exact Hrun|].
  rewrite Ht, Hsu, Hsh, Hg, Hae.
  split; [intros ->; repeat split; reflexivity|].
  split; [intros ->; repeat split; reflexivity|].
  split; [intros ->; repeat split; reflexivity|].
  split.
  - intros ->. unfold add_amount_rmb in Ha. cbn [String.eqb Ascii.eqb Bool.eqb] in Ha.
    injection Ha as <-. reflexivity.
  - intros ->. unfold add_amount_rmb in Ha.
    cbn [String.eqb Ascii.eqb Bool.eqb] in Ha.
    rewrite inverse_or_value in Ha.
    destruct (Qeq_bool (rate rates "GBP" 0.11) 0);
      cbn [times] in Ha; injection Ha as <-; reflexivity.
Qed.

Lemma add_expense_payer_bears_total_witness :
  exists (e : Expense) (b' : Bot),
    add_expense (Sample.env false WriteOk) "London" "Tea" 12 "GBP" "Food"
      "Sunil" None None (Sample.bot Sample.zero_gbp)
    = (ExpenseAdded e, b')
    /\ total_rmb e = 12 * 9.09
    /\ sunil_rmb e = total_rmb e
    /\ sunil_gbp e = total_rmb e * 0
    /\ shirin_aed e = 0.
Proof.
  destruct (add_expense_payer_bears_total (Sample.env false WriteOk)
              "London" "Tea" 12 "GBP" "Food" "Sunil" None None
              (Sample.bot Sample.zero_gbp) eq_refl eq_refl eq_refl
              eq_refl (fun _ => eq_refl) eq_refl)
    as (e & b' & Hrun & Hsunil & _ & _ & _ & Hgbp).
  exists e, b'. split; [exact Hrun|].
  destruct (Hsunil eq_refl) as (H1 & H2 & _ & H4).
  split; [exact (Hgbp eq_refl)|].
  split; [exact H1|]. split; [exact H2|exact H4].
Defined.

End ConversionPaths.

(** ** The list command *)
Section ListCommand.
Import Database Commands.

Lemma filter_filter_andb {A : Type} (p q : A -> bool) (l : list A) :
  List.filter p (List.filter q l) = List.filter (fun x => q x && p x) l.
Proof.
  induction l as [|x l IH]; [reflexivity|].
  simpl. destruct (q x); simpl; [destruct (p x)|]; rewrite IH; reflexivity.
Qed.

(** The category filter of the command, applied to the listing by city,
    gives the listing by city and category of the store. *)
Lemma list_expenses_category_filter (f_city f_category : option string)
    (s : Store) :
  (if truthy f_category then
     List.filter
       (fun exp => String.eqb (category exp) (default "" f_category))
       (get_expenses f_city None None None s)
   else get_expenses f_city None None None s)
  = get_expenses f_city f_category None None s.
Proof.
  destruct f_category as [c|]; [|reflexivity].
  unfold truthy. destruct (String.eqb_spec c "") as [->|Hc]; [reflexivity|].
  cbn [negb default]. unfold get_expenses.
  rewrite !sort_by_date_desc_generic.
  rewrite (filter_sort_desc (fun a b => String.ltb (date a) (date b)));
    [|intros a b; apply ltb_asym|intros a b d; apply ltb_false_trans].
  rewrite filter_filter_andb. f_equal. apply List.filter_ext. intros e.
  unfold kept, skip_ne, skip_lt, skip_gt, truthy.
  apply String.eqb_neq in Hc. rewrite Hc. simpl.
  destruct (String.eqb (category e) c); destruct f_city as [fc|]; simpl;
    try destruct (String.eqb fc ""); simpl;
    try destruct (String.eqb (city e) fc); reflexivity.
Qed.

(** X17. What [list_expenses] answers, limit by limit.  A limit below 0
    or above 20 is rejected.  A missing limit and the limit 0 stand for
    10.  For every other limit from 1 to 20 and for those two, the answer
    is decided by the listing of the store for the city and the category
    (the category filter of the command and the one of the store agree):
    nothing found when that listing is empty, otherwise its first [limit]
    records together with its length. *)
Theorem list_expenses_shows_head_of_listing
    (f_city f_category : option string) (b : Bot) :
  let listing := get_expenses f_city f_category None None (db b) in
  (forall n : Z,
     (n < 0 \/ 20 < n)%Z ->
     list_expenses (Some n) f_city f_category b = LimitOutOfRange)
  /\ list_expenses None f_city f_category b
     = match listing with
       | [] => NoExpensesFound
       | _ => ExpenseList (firstn 10 listing) (length listing)
       end
  /\ list_expenses (Some 0%Z) f_city f_category b
     = match listing with
       | [] => NoExpensesFound
       | _ => ExpenseList (firstn 10 listing) (length listing)
       end
  /\ (forall n : Z,
        (1 <= n <= 20)%Z ->
        list_expenses (Some n) f_city f_category b
        = match listing with
          | [] => NoExpensesFound
          | _ => ExpenseList (firstn (Z.to_nat n) listing) (length listing)
          end).
Proof.
  intros listing.
  pose proof (list_expenses_category_filter f_city f_category (db b)) as Hf.
  fold listing in Hf.
  split; [|split; [|split]].
  - intros n Hn. unfold list_expenses.
    destruct (Z.eqb_spec n 0) as [->|_]; [lia|].
    destruct (Z.ltb_spec n 1), (Z.ltb_spec 20 n); try reflexivity; lia.
  - unfold list_expenses. cbv zeta. rewrite Hf. reflexivity.
  - unfold list_expenses. cbn [Z.eqb negb andb]. cbv zeta. rewrite Hf.
    reflexivity.
  - intros n Hn. unfold list_expenses, limit_or_10.
    destruct (Z.eqb_spec n 0) as [->|_]; [lia|].
    destruct (Z.ltb_spec n 1); [lia|].
    destruct (Z.ltb_spec 20 n); [lia|].
    cbn [negb andb orb]. cbv zeta. rewrite Hf. reflexivity.
Qed.

End ListCommand.

(** ** The spending summary *)
Section SpendingSummary.
Import Database Commands.

Local Open Scope Q_scope.


End SpendingSummary.

Section ListCommandExamples.
Import Database Commands.

Local Open Scope Q_scope.

Lemma list_expenses_shows_head_of_listing_witness :
  list_expenses (Some 1%Z) None (Some "Food"%string)
    (Sample.bot Sample.default_rates)
  = ExpenseList [Sample.dinner] 2
  /\ list_expenses (Some 21%Z) None (Some "Food"%string)
       (Sample.bot Sample.default_rates)
     = LimitOutOfRange.
Proof.
  destruct (list_expenses_shows_head_of_listing None (Some "Food"%string)
              (Sample.bot Sample.default_rates)) as (Hout & _ & _ & Hin).
  split.
  - exact (Hin 1%Z (conj (Z.le_refl 1) (Zle_bool_imp_le 1 20 eq_refl))).
  - apply Hout. right. reflexivity.
Defined.

End ListCommandExamples.
